(** * IS 1200 measurement engine (engines/is1200_civil.py)

    A shallow embedding of the civil quantity take-off engine and the
    properties of its measurement rules.

    Numbers.  Python floats are modelled by exact rationals [Q]; equality of
    quantities is [Qeq] ([==]).  [round(x, k)] is rounding to [k] decimals,
    ties to even.  Python ints are [Z].  An argument annotated [int] that
    the code passes through [int(...)] is taken as a number and truncated.

    Dictionaries.  An opening description is a Python object: either a
    [dict] with string keys, modelled by [gmap string pyval], or something
    that is not a dict.  The dictionaries the engine returns are
    [gmap string Q].

    Exceptions.  A call either returns a value or raises; [pyres] is the
    corresponding error monad. *)

From Stdlib Require Import QArith Qround Qminmax Qabs Lqa ZArith Lia.
From Stdlib Require Import Ascii String.
From stdpp Require Import gmap strings list fin_maps.

Local Open Scope Q_scope.

(** ** Python numeric primitives *)

Module Py.

(** Python exceptions that the engine can let escape. *)
Inductive exn : Type :=
| TypeError
| ValueError
| ZeroDivisionError
| KeyError.

(** Outcome of a call. *)
Inductive pyres (A : Type) : Type :=
| Ok (a : A)
| Raise (e : exn).
Global Arguments Ok {A} a.
Global Arguments Raise {A} e.

Global Instance pyres_ret : MRet pyres := fun _ a => Ok a.
Global Instance pyres_bind : MBind pyres := fun _ _ f m =>
  match m with
  | Ok a => f a
  | Raise e => Raise e
  end.
Global Instance pyres_fmap : FMap pyres := fun _ _ f m =>
  match m with
  | Ok a => Ok (f a)
  | Raise e => Raise e
  end.

(** [x < y] on floats, as a test. *)
Definition ltb (x y : Q) : bool := negb (Qle_bool y x).
(** [x <= y] on floats, as a test. *)
Definition leb (x y : Q) : bool := Qle_bool x y.

(** The builtin [max(x, y)] of two numbers: [y] replaces [x] only when
    [y > x]. *)
Definition max (x y : Q) : Q := if ltb x y then y else x.

(** [max] on ints. *)
Definition maxz (x y : Z) : Z := if (x <? y)%Z then y else x.

(** [int(x)]: truncation towards zero. *)
Definition int (x : Q) : Z := Z.quot (Qnum x) (Z.pos (Qden x)).

(** [10 ** k] for a number of decimals [k]. *)
Fixpoint scale (k : nat) : positive :=
  match k with
  | O => 1%positive
  | S k' => (10 * scale k')%positive
  end.

(** Nearest integer, ties to the even neighbour. *)
Definition round_half_even (x : Q) : Z :=
  let f := Qfloor x in
  match Qcompare (x - inject_Z f) (1 # 2) with
  | Lt => f
  | Gt => (f + 1)%Z
  | Eq => if Z.even f then f else (f + 1)%Z
  end.

(** [round(x, ndigits)]. *)
Definition round (x : Q) (ndigits : nat) : Q :=
  round_half_even (x * inject_Z (Z.pos (scale ndigits))) # scale ndigits.

(** [x // y] on floats. *)
Definition floordiv (x y : Q) : pyres Q :=
  if Qeq_bool y 0 then Raise ZeroDivisionError
  else Ok (inject_Z (Qfloor (x / y))).

End Py.

Import Py.

(** ** Strings: [str.lower] and [str.strip] on ASCII text *)

Module Str.

Definition lower_ascii (c : ascii) : ascii :=
  let n := N_of_ascii c in
  if ((65 <=? n) && (n <=? 90))%N then ascii_of_N (n + 32) else c.

(** [str.lower]. *)
Fixpoint lower (s : string) : string :=
  match s with
  | EmptyString => EmptyString
  | String c s' => String (lower_ascii c) (lower s')
  end.

(** Characters that [str.strip] removes: tab, line feed, vertical tab,
    form feed, carriage return, the four separators 28..31 and space. *)
Definition isspace (c : ascii) : bool :=
  let n := N_of_ascii c in
  (((9 <=? n) && (n <=? 13)) || ((28 <=? n) && (n <=? 32)))%N.

Fixpoint lstrip (s : string) : string :=
  match s with
  | EmptyString => EmptyString
  | String c s' => if isspace c then lstrip s' else s
  end.

Definition rstrip (s : string) : string :=
  String.rev (lstrip (String.rev s)).

(** [str.strip]. *)
Definition strip (s : string) : string := rstrip (lstrip s).

End Str.

(** ** Values found in an opening description *)

(** A Python value stored under a key of an opening dict: [None], a bool,
    an int or a float. *)
Inductive pyval : Type :=
| VNone
| VBool (b : bool)
| VInt (z : Z)
| VFloat (q : Q).

(** [float(v)]. *)
Definition py_float (v : pyval) : pyres Q :=
  match v with
  | VNone => Raise TypeError
  | VBool b => Ok (if b then 1 else 0)
  | VInt z => Ok (inject_Z z)
  | VFloat q => Ok q
  end.

(** An element of the [openings] list: a dict, or any other object. *)
Inductive entry : Type :=
| EDict (d : gmap string pyval)
| EOther (v : pyval).

(** [d.get(key, default)]. *)
Definition dict_get (d : gmap string pyval) (key : string) (dflt : pyval)
  : pyval :=
  default dflt (d !! key).

(** A normalised opening [{"w": w, "h": h, "n": n}]. *)
Record opening : Type := Opening { o_w : Q; o_h : Q; o_n : Q }.

(** ** [MeasureResult] *)

Module MeasureResult.

Record t : Type := Make {
  gross : Q;
  deductions : Q;
  additions : Q;
  unit : string;
  meta : gmap string Q
}.

(** [MeasureResult(gross=..., deductions=..., additions=..., unit=...)]
    with the defaults of the dataclass. *)
Definition make (gross deductions additions : Q) (unit : string) : t :=
  Make gross deductions additions unit ∅.

(** [to_dict(self, round_to)]; [out.update(self.meta)] lets the keys of
    [meta] override the four computed ones. *)
Definition to_dict (self : t) (round_to : nat) : gmap string Q :=
  let g := Py.round (gross self) round_to in
  let d := Py.round (deductions self) round_to in
  let a := Py.round (additions self) round_to in
  let n := Py.round (Py.max (g - d + a) 0) round_to in
  let out : gmap string Q :=
    <["net" := n]>
      (<["additions" := a]>
         (<["deductions" := d]>
            (<["gross" := g]> ∅))) in
  meta self ∪ out.

End MeasureResult.

(** ** Module-level helpers *)

(** [_round_for_unit(value, unit)]. *)
Definition _round_for_unit (value : Q) (unit : string) : Q :=
  let unit := Str.strip (Str.lower unit) in
  if bool_decide (unit ∈ ["m"; "rm"; "rmt"]%string) then Py.round value 2
  else if bool_decide (unit ∈ ["sqm"; "m2"; "sq.m"; "sq.m."]%string)
  then Py.round value 2
  else if bool_decide (unit ∈ ["cum"; "m3"; "cu.m"; "cu.m."]%string)
  then Py.round value 3
  else if bool_decide (unit ∈ ["kg"; "kilogram"; "kilograms"]%string)
  then Py.round value 2
  else Py.round value 3.

(** The body of the [for o in openings] loop of [_normalise_openings],
    with the accumulator [out]. *)
Fixpoint normalise_loop (openings : list entry) (out : list opening)
  : pyres (list opening) :=
  match openings with
  | [] => Ok out
  | o :: rest =>
      match o with
      | EOther _ => normalise_loop rest out
      | EDict d =>
          w ← py_float (dict_get d "w" (VFloat 0));
          h ← py_float (dict_get d "h" (VFloat 0));
          n ← py_float (dict_get d "n" (VFloat 1));
          if Py.leb w 0 || Py.leb h 0 || Py.leb n 0
          then normalise_loop rest out
          else normalise_loop rest (out ++ [Opening w h n])
      end
  end.

(** [_normalise_openings(openings)]; [None] and the empty list are falsy. *)
Definition _normalise_openings (openings : option (list entry))
  : pyres (list opening) :=
  match openings with
  | None => Ok []
  | Some [] => Ok []
  | Some l => normalise_loop l []
  end.

(** ** The public engine

    For a method that ends in [mr = MeasureResult(...); return
    mr.to_dict(round_to=k)], [f_mr] is the [MeasureResult] it builds and [f]
    the dictionary it returns. *)

Module IS1200Engine.

Import MeasureResult.

(** *** Generic volume *)

Definition volume (L B D deductions : Q) (unit : string) : gmap string Q :=
  let L := Py.max L 0 in
  let B := Py.max B 0 in
  let D := Py.max D 0 in
  let gross := L * B * D in
  let deductions := Py.max deductions 0 in
  let gross_r := _round_for_unit gross unit in
  let ded_r := _round_for_unit deductions unit in
  let net_r := _round_for_unit (Py.max (gross_r - ded_r) 0) unit in
  let pct :=
    if Py.ltb 0 gross_r then Py.round (ded_r / gross_r * 100) 2 else 0 in
  <["pct" := pct]>
    (<["net" := net_r]>
       (<["additions" := 0]>
          (<["deductions" := ded_r]>
             (<["gross" := gross_r]> ∅)))).

(** *** Earthwork *)

Definition trench_excavation_mr
    (length breadth_bottom depth side_slope_h_over_v deductions : Q)
    (unit : string) : MeasureResult.t :=
  let length := Py.max length 0 in
  let breadth_bottom := Py.max breadth_bottom 0 in
  let depth := Py.max depth 0 in
  let gross :=
    if Py.ltb 0 side_slope_h_over_v then
      let top_b := breadth_bottom + 2 * side_slope_h_over_v * depth in
      let avg_b := (breadth_bottom + top_b) / 2 in
      length * avg_b * depth
    else
      length * breadth_bottom * depth in
  MeasureResult.make gross (Py.max deductions 0) 0 unit.

Definition trench_excavation
    (length breadth_bottom depth side_slope_h_over_v deductions : Q)
    (unit : string) : gmap string Q :=
  to_dict
    (trench_excavation_mr length breadth_bottom depth side_slope_h_over_v
       deductions unit) 3.

Definition pit_excavation_mr
    (length_bottom breadth_bottom depth side_slope_h_over_v : Q)
    (unit : string) : MeasureResult.t :=
  let length_bottom := Py.max length_bottom 0 in
  let breadth_bottom := Py.max breadth_bottom 0 in
  let depth := Py.max depth 0 in
  let gross :=
    if Py.ltb 0 side_slope_h_over_v then
      let top_L := length_bottom + 2 * side_slope_h_over_v * depth in
      let top_B := breadth_bottom + 2 * side_slope_h_over_v * depth in
      let avg_L := (length_bottom + top_L) / 2 in
      let avg_B := (breadth_bottom + top_B) / 2 in
      avg_L * avg_B * depth
    else
      length_bottom * breadth_bottom * depth in
  MeasureResult.make gross 0 0 unit.

Definition pit_excavation
    (length_bottom breadth_bottom depth side_slope_h_over_v : Q)
    (unit : string) : gmap string Q :=
  to_dict
    (pit_excavation_mr length_bottom breadth_bottom depth
       side_slope_h_over_v unit) 3.

Definition backfill_mr
    (length breadth height compaction_factor : Q) (unit : string)
  : MeasureResult.t :=
  let length := Py.max length 0 in
  let breadth := Py.max breadth 0 in
  let height := Py.max height 0 in
  let gross := length * breadth * height in
  let extra :=
    if Py.ltb 1 compaction_factor then gross * (compaction_factor - 1)
    else 0 in
  MeasureResult.make gross 0 extra unit.

Definition backfill
    (length breadth height compaction_factor : Q) (unit : string)
  : gmap string Q :=
  to_dict (backfill_mr length breadth height compaction_factor unit) 3.

(** *** Concrete *)

Definition isolated_footing_volume_mr
    (L B D pedestal_L pedestal_B pedestal_H deductions : Q) (unit : string)
  : MeasureResult.t :=
  let v_foot := Py.max L 0 * Py.max B 0 * Py.max D 0 in
  let v_ped :=
    Py.max pedestal_L 0 * Py.max pedestal_B 0 * Py.max pedestal_H 0 in
  let gross := v_foot + v_ped in
  MeasureResult.make gross (Py.max deductions 0) 0 unit.

Definition isolated_footing_volume
    (L B D pedestal_L pedestal_B pedestal_H deductions : Q) (unit : string)
  : gmap string Q :=
  to_dict
    (isolated_footing_volume_mr L B D pedestal_L pedestal_B pedestal_H
       deductions unit) 3.

(** *** Masonry *)

(** One turn of the deduction loop of [brickwork_wall]. *)
Definition brickwork_step (thickness small_opening_limit : Q)
    (ded : Q) (o : opening) : Q :=
  let area_one := o_w o * o_h o in
  let n := o_n o in
  if Py.leb area_one small_opening_limit then ded
  else ded + area_one * thickness * n.

Definition brickwork_wall_mr
    (length thickness height : Q) (openings : option (list entry))
    (small_opening_limit : Q) (unit : string) : pyres MeasureResult.t :=
  let length := Py.max length 0 in
  let thickness := Py.max thickness 0 in
  let height := Py.max height 0 in
  let gross := length * thickness * height in
  norm_openings ← _normalise_openings openings;
  let ded :=
    foldl (brickwork_step thickness small_opening_limit) 0 norm_openings in
  mret (MeasureResult.make gross ded 0 unit).

Definition brickwork_wall
    (length thickness height : Q) (openings : option (list entry))
    (small_opening_limit : Q) (unit : string) : pyres (gmap string Q) :=
  mr ← brickwork_wall_mr length thickness height openings
         small_opening_limit unit;
  mret (to_dict mr 3).

Definition stone_masonry_wall
    (length thickness height : Q) (openings : option (list entry))
    (small_opening_limit : Q) (unit : string) : pyres (gmap string Q) :=
  brickwork_wall length thickness height openings small_opening_limit unit.

(** *** Plaster and paint *)

(** One turn of the deduction loop of [wall_finish_area]. *)
Definition wall_finish_step
    (sides : Z) (small_opening_limit medium_opening_limit : Q)
    (ded : Q) (o : opening) : Q :=
  let A_one := o_w o * o_h o in
  let n := o_n o in
  if Py.leb A_one small_opening_limit then ded
  else if Py.leb A_one medium_opening_limit then ded + A_one * n
  else ded + A_one * inject_Z sides * n.

Definition wall_finish_area_mr
    (length height sides : Q) (openings : option (list entry))
    (small_opening_limit medium_opening_limit : Q) (unit : string)
  : pyres MeasureResult.t :=
  let length := Py.max length 0 in
  let height := Py.max height 0 in
  let sides := Py.maxz (Py.int sides) 0 in
  let gross := length * height * inject_Z sides in
  norm_openings ← _normalise_openings openings;
  let ded :=
    foldl (wall_finish_step sides small_opening_limit medium_opening_limit)
      0 norm_openings in
  mret (MeasureResult.make gross ded 0 unit).

Definition wall_finish_area
    (length height sides : Q) (openings : option (list entry))
    (small_opening_limit medium_opening_limit : Q) (unit : string)
  : pyres (gmap string Q) :=
  mr ← wall_finish_area_mr length height sides openings
         small_opening_limit medium_opening_limit unit;
  mret (to_dict mr 2).

(** One turn of the deduction loop of [ceiling_finish_area]. *)
Definition ceiling_finish_step (small_opening_limit : Q)
    (ded : Q) (o : opening) : Q :=
  let A_one := o_w o * o_h o in
  let n := o_n o in
  if Py.ltb small_opening_limit A_one then ded + A_one * n else ded.

Definition ceiling_finish_area_mr
    (length breadth : Q) (openings : option (list entry))
    (small_opening_limit : Q) (unit : string) : pyres MeasureResult.t :=
  let length := Py.max length 0 in
  let breadth := Py.max breadth 0 in
  let gross := length * breadth in
  norm_openings ← _normalise_openings openings;
  let ded := foldl (ceiling_finish_step small_opening_limit) 0 norm_openings in
  mret (MeasureResult.make gross ded 0 unit).

Definition ceiling_finish_area
    (length breadth : Q) (openings : option (list entry))
    (small_opening_limit : Q) (unit : string) : pyres (gmap string Q) :=
  mr ← ceiling_finish_area_mr length breadth openings small_opening_limit
         unit;
  mret (to_dict mr 2).

(** *** Flooring *)

(** One turn of the cut-out loop of [floor_area]. *)
Definition floor_step (ded : Q) (c : opening) : Q :=
  ded + o_w c * o_h c * o_n c.

Definition floor_area_mr
    (length breadth : Q) (cutouts : option (list entry)) (unit : string)
  : pyres MeasureResult.t :=
  let length := Py.max length 0 in
  let breadth := Py.max breadth 0 in
  let gross := length * breadth in
  norm_cutouts ← _normalise_openings cutouts;
  let ded := foldl floor_step 0 norm_cutouts in
  mret (MeasureResult.make gross ded 0 unit).

Definition floor_area
    (length breadth : Q) (cutouts : option (list entry)) (unit : string)
  : pyres (gmap string Q) :=
  mr ← floor_area_mr length breadth cutouts unit;
  mret (to_dict mr 2).

(** [base[key]] on a returned dictionary. *)
Definition item (base : gmap string Q) (key : string) : pyres Q :=
  match base !! key with
  | Some v => Ok v
  | None => Raise KeyError
  end.

Definition floor_area_with_wastage_mr
    (length breadth wastage_factor : Q) (cutouts : option (list entry))
    (unit : string) : pyres MeasureResult.t :=
  base ← floor_area length breadth cutouts unit;
  net_base ← item base "net";
  let extra :=
    if Py.ltb 1 wastage_factor then net_base * (wastage_factor - 1)
    else 0 in
  g ← item base "gross";
  d ← item base "deductions";
  mret (MeasureResult.make g d extra unit).

Definition floor_area_with_wastage
    (length breadth wastage_factor : Q) (cutouts : option (list entry))
    (unit : string) : pyres (gmap string Q) :=
  mr ← floor_area_with_wastage_mr length breadth wastage_factor cutouts
         unit;
  mret (to_dict mr 2).

(** *** Formwork: a bare rounded number *)

Definition formwork_column_area (L B H : Q) (unit : string) : Q :=
  let L := Py.max L 0 in
  let B := Py.max B 0 in
  let H := Py.max H 0 in
  let area := 2 * (L + B) * H in
  _round_for_unit area unit.

Definition formwork_beam_area (breadth depth length : Q) (unit : string)
  : Q :=
  let breadth := Py.max breadth 0 in
  let depth := Py.max depth 0 in
  let length := Py.max length 0 in
  let area := (2 * depth + breadth) * length in
  _round_for_unit area unit.

Definition formwork_slab_area (length breadth : Q) (unit : string) : Q :=
  let length := Py.max length 0 in
  let breadth := Py.max breadth 0 in
  let area := length * breadth in
  _round_for_unit area unit.

(** *** Staircase *)

Definition staircase_waist_slab_volume_mr
    (flight_length width waist_thickness landings_volume : Q)
    (unit : string) : MeasureResult.t :=
  let flight_length := Py.max flight_length 0 in
  let width := Py.max width 0 in
  let waist_thickness := Py.max waist_thickness 0 in
  let landings_volume := Py.max landings_volume 0 in
  let v_waist := flight_length * width * waist_thickness in
  let gross := v_waist + landings_volume in
  MeasureResult.make gross 0 0 unit.

Definition staircase_waist_slab_volume
    (flight_length width waist_thickness landings_volume : Q)
    (unit : string) : gmap string Q :=
  to_dict
    (staircase_waist_slab_volume_mr flight_length width waist_thickness
       landings_volume unit) 3.

(** *** Reinforcement *)

Definition steel_from_kg_per_cum_mr
    (concrete_volume_cum kg_per_cum : Q) (unit : string)
  : MeasureResult.t :=
  let concrete_volume_cum := Py.max concrete_volume_cum 0 in
  let kg_per_cum := Py.max kg_per_cum 0 in
  let wt := concrete_volume_cum * kg_per_cum in
  MeasureResult.make wt 0 0 unit.

Definition steel_from_kg_per_cum
    (concrete_volume_cum kg_per_cum : Q) (unit : string) : gmap string Q :=
  to_dict (steel_from_kg_per_cum_mr concrete_volume_cum kg_per_cum unit) 2.

Definition steel_from_bars_mr (dia_mm length_m count : Q) (unit : string)
  : MeasureResult.t :=
  let dia_mm := Py.max dia_mm 0 in
  let length_m := Py.max length_m 0 in
  let count := Py.maxz (Py.int count) 0 in
  if Py.leb dia_mm 0 || Py.leb length_m 0 || (count <=? 0)%Z then
    MeasureResult.make 0 0 0 unit
  else
    let wt_per_m := (dia_mm ^ 2) / 162 in
    let total := wt_per_m * length_m * inject_Z count in
    MeasureResult.make total 0 0 unit.

Definition steel_from_bars (dia_mm length_m count : Q) (unit : string)
  : gmap string Q :=
  to_dict (steel_from_bars_mr dia_mm length_m count unit) 2.

(** [n_bars] of [steel_slab_single_layer], from the clamped width and
    spacing. *)
Definition n_bars (slab_width spacing_mm : Q) : pyres Z :=
  q ← Py.floordiv (slab_width * 1000) spacing_mm;
  mret (Py.int q + 1)%Z.

Definition steel_slab_single_layer
    (slab_length slab_width bar_dia_mm spacing_mm : Q) (unit : string)
  : pyres (gmap string Q) :=
  let slab_length := Py.max slab_length 0 in
  let slab_width := Py.max slab_width 0 in
  let spacing_mm := Py.max spacing_mm 1 in
  n_bars ← n_bars slab_width spacing_mm;
  if (n_bars <=? 0)%Z then
    mret (to_dict (MeasureResult.make 0 0 0 unit) 2)
  else
    let steel :=
      steel_from_bars bar_dia_mm slab_length (inject_Z n_bars) unit in
    mret steel.

End IS1200Engine.

Import IS1200Engine.


(** ** Calls that return a result record *)

(** The fifteen record-returning methods with their arguments, the unit tag
    apart. *)
Inductive call : Type :=
| CVolume (L B D deductions : Q)
| CTrenchExcavation (length breadth_bottom depth side_slope deductions : Q)
| CPitExcavation (length_bottom breadth_bottom depth side_slope : Q)
| CBackfill (length breadth height compaction_factor : Q)
| CIsolatedFooting (L B D pedestal_L pedestal_B pedestal_H deductions : Q)
| CBrickworkWall (length thickness height : Q)
    (openings : option (list entry)) (small_opening_limit : Q)
| CStoneMasonryWall (length thickness height : Q)
    (openings : option (list entry)) (small_opening_limit : Q)
| CWallFinishArea (length height sides : Q)
    (openings : option (list entry))
    (small_opening_limit medium_opening_limit : Q)
| CCeilingFinishArea (length breadth : Q)
    (openings : option (list entry)) (small_opening_limit : Q)
| CFloorArea (length breadth : Q) (cutouts : option (list entry))
| CFloorAreaWithWastage (length breadth wastage_factor : Q)
    (cutouts : option (list entry))
| CStaircase (flight_length width waist_thickness landings_volume : Q)
| CSteelFromKgPerCum (concrete_volume_cum kg_per_cum : Q)
| CSteelFromBars (dia_mm length_m count : Q)
| CSteelSlabSingleLayer (slab_length slab_width bar_dia_mm spacing_mm : Q).

(** Perform a call with the given unit tag. *)
Definition run (c : call) (unit : string) : pyres (gmap string Q) :=
  match c with
  | CVolume L B D ded => Ok (volume L B D ded unit)
  | CTrenchExcavation l b d s ded => Ok (trench_excavation l b d s ded unit)
  | CPitExcavation l b d s => Ok (pit_excavation l b d s unit)
  | CBackfill l b h f => Ok (backfill l b h f unit)
  | CIsolatedFooting L B D pl pb ph ded =>
      Ok (isolated_footing_volume L B D pl pb ph ded unit)
  | CBrickworkWall l t h os lim => brickwork_wall l t h os lim unit
  | CStoneMasonryWall l t h os lim => stone_masonry_wall l t h os lim unit
  | CWallFinishArea l h s os small medium =>
      wall_finish_area l h s os small medium unit
  | CCeilingFinishArea l b os lim => ceiling_finish_area l b os lim unit
  | CFloorArea l b cs => floor_area l b cs unit
  | CFloorAreaWithWastage l b f cs => floor_area_with_wastage l b f cs unit
  | CStaircase fl w t lv => Ok (staircase_waist_slab_volume fl w t lv unit)
  | CSteelFromKgPerCum v k => Ok (steel_from_kg_per_cum v k unit)
  | CSteelFromBars d l c => Ok (steel_from_bars d l c unit)
  | CSteelSlabSingleLayer l w d s => steel_slab_single_layer l w d s unit
  end.

(** The opening or cut-out list of a call, [None] for a method without
    one. *)
Definition openings_of (c : call) : option (list entry) :=
  match c with
  | CBrickworkWall _ _ _ os _ | CStoneMasonryWall _ _ _ os _
  | CWallFinishArea _ _ _ os _ _ | CCeilingFinishArea _ _ os _
  | CFloorArea _ _ os | CFloorAreaWithWastage _ _ _ os => os
  | _ => None
  end.

(** The [round_to] that a call hands to [to_dict]; [volume] has none. *)
Definition round_to_of (c : call) : option nat :=
  match c with
  | CVolume _ _ _ _ => None
  | CTrenchExcavation _ _ _ _ _ | CPitExcavation _ _ _ _ | CBackfill _ _ _ _
  | CIsolatedFooting _ _ _ _ _ _ _ | CBrickworkWall _ _ _ _ _
  | CStoneMasonryWall _ _ _ _ _ | CStaircase _ _ _ _ => Some 3%nat
  | CWallFinishArea _ _ _ _ _ _ | CCeilingFinishArea _ _ _ _
  | CFloorArea _ _ _ | CFloorAreaWithWastage _ _ _ _
  | CSteelFromKgPerCum _ _ | CSteelFromBars _ _ _
  | CSteelSlabSingleLayer _ _ _ _ => Some 2%nat
  end.

(** ** Vocabulary of the specification *)

(** [q] is written with at most [k] decimals. *)
Definition has_decimals (k : nat) (q : Q) : Prop :=
  ∃ z : Z, q == z # Py.scale k.

(** Sum of a list of quantities. *)
Definition Qsum (l : list Q) : Q := foldr Qplus 0 l.

(** One-face area of an opening. *)
Definition area_one (o : opening) : Q := o_w o * o_h o.

(** Unit tags by family, after lower-casing and stripping. *)
Definition linear_tags : list string := ["m"; "rm"; "rmt"]%string.
Definition area_tags : list string := ["sqm"; "m2"; "sq.m"; "sq.m."]%string.
Definition volume_tags : list string := ["cum"; "m3"; "cu.m"; "cu.m."]%string.
Definition weight_tags : list string :=
  ["kg"; "kilogram"; "kilograms"]%string.

Definition canonical_tag (unit : string) : string :=
  Str.strip (Str.lower unit).

Inductive family : Type := Linear | Area | Volume | Weight | Unrecognised.

Definition family_of (unit : string) : family :=
  let tag := canonical_tag unit in
  if decide (tag ∈ linear_tags) then Linear
  else if decide (tag ∈ area_tags) then Area
  else if decide (tag ∈ volume_tags) then Volume
  else if decide (tag ∈ weight_tags) then Weight
  else Unrecognised.

(** Decimals by family: 2 for linear, area and weight, 3 for volume and for
    a tag of no family. *)
Definition decimals (f : family) : nat :=
  match f with
  | Linear | Area | Weight => 2
  | Volume | Unrecognised => 3
  end.

(** An opening entry is well typed when the values it stores under the
    three conventional keys are numbers. *)
Definition is_number (v : pyval) : bool :=
  match v with
  | VNone => false
  | VBool _ | VInt _ | VFloat _ => true
  end.

Definition well_typed (e : entry) : bool :=
  match e with
  | EOther _ => true
  | EDict d =>
      forallb (λ key, from_option is_number true (d !! key))
        ["w"; "h"; "n"]%string
  end.

(** The number an opening dict carries under [key], [dflt] when the key is
    missing. *)
Definition number_at (d : gmap string pyval) (key : string) (dflt : Q) : Q :=
  match d !! key with
  | None => dflt
  | Some (VFloat q) => q
  | Some (VInt z) => inject_Z z
  | Some (VBool b) => if b then 1 else 0
  | Some VNone => dflt
  end.

(** The opening that a well-typed entry stands for, if it stands for one:
    a mapping whose width, height and count (defaults 0, 0 and 1) are all
    positive. *)
Definition survivor (e : entry) : option opening :=
  match e with
  | EOther _ => None
  | EDict d =>
      let w := number_at d "w" 0 in
      let h := number_at d "h" 0 in
      let n := number_at d "n" 1 in
      if Qlt_le_dec 0 w then
        if Qlt_le_dec 0 h then
          if Qlt_le_dec 0 n then Some (Opening w h n) else None
        else None
      else None
  end.




(** The four quantities of a result record. *)
Definition has_fields (r : gmap string Q) (g d a n : Q) : Prop :=
  r !! "gross"%string = Some g ∧ r !! "deductions"%string = Some d ∧
  r !! "additions"%string = Some a ∧ r !! "net"%string = Some n.

(** A record whose net is the clamped balance of its other three fields. *)
Definition balanced (r : gmap string Q) : Prop :=
  ∃ g d a n, has_fields r g d a n ∧ 0 <= n ∧ n == Qmax (g - d + a) 0.

(** A normalised opening has positive width, height and count. *)
Definition positive_opening (o : opening) : Prop :=
  0 < o_w o ∧ 0 < o_h o ∧ 0 < o_n o.

(** The keys of a result record. *)
Definition record_keys : gset string :=
  {[ "gross"; "deductions"; "additions"; "net" ]}%string.

(** * Properties *)

(** ** Concrete runs *)

Example round_0125 : Py.round (1 # 8) 2 = 12 # 100.
Proof. reflexivity. Qed.

Example round_0375 : Py.round (3 # 8) 2 = 38 # 100.
Proof. reflexivity. Qed.

Example round_neg : Py.round (- (1126 # 1000)) 2 = (-113) # 100.
Proof. reflexivity. Qed.

Example round_25 : Py.round (5 # 2) 0 = 2 # 1.
Proof. reflexivity. Qed.

Example int_neg : Py.int (- (7 # 2)) = (-3)%Z.
Proof. reflexivity. Qed.

Example strip_lower_sqm : Str.strip (Str.lower "  Sq.M. ") = "sq.m."%string.
Proof. reflexivity. Qed.

Example normalise_demo :
  _normalise_openings
    (Some [EDict {[ "w" := VFloat 1; "h" := VFloat (21 # 10); "n" := VInt 1 ]};
           EOther VNone;
           EDict {[ "w" := VFloat 1 ]};
           EDict {[ "w" := VInt 2; "h" := VInt 3 ]}])
  = Ok [Opening 1 (21 # 10) (inject_Z 1); Opening (inject_Z 2) (inject_Z 3) 1].
Proof. vm_compute. reflexivity. Qed.

Example selftest_volume :
  volume 5 2 (3 # 10) 0 "cum" !! "net"%string = Some (3000 # 1000).
Proof. vm_compute. reflexivity. Qed.

Example selftest_steel :
  steel_from_bars 12 6 10 "kg" !! "net"%string = Some (5333 # 100).
Proof. vm_compute. reflexivity. Qed.

Example selftest_wall_finish :
  (λ r, r !! "net"%string) <$>
    wall_finish_area 5 3 2
      (Some [EDict {[ "w" := VFloat (12 # 10); "h" := VFloat (15 # 10);
                      "n" := VInt 2 ]}])
      (1 # 2) 3 "sqm"
  = Ok (Some (2640 # 100)).
Proof. vm_compute. reflexivity. Qed.

Example volume_pct_run :
  volume 5 2 (3 # 10) 1 "cum" !! "pct"%string = Some (3333 # 100).
Proof. vm_compute. reflexivity. Qed.

Example volume_over_deducted :
  volume 1 1 1 5 "cum" !! "net"%string = Some (0 # 1000).
Proof. vm_compute. reflexivity. Qed.

Example wall_finish_three_tiers :
  (λ r, r !! "deductions"%string) <$>
    wall_finish_area 10 3 2
      (Some [EDict {[ "w" := VFloat (4 # 10); "h" := VFloat 1 ]};
             EDict {[ "w" := VFloat 2; "h" := VFloat 1; "n" := VInt 3 ]};
             EDict {[ "w" := VFloat 2; "h" := VFloat 2; "n" := VInt 1 ]}])
      (1 # 2) 3 "sqm"
  = Ok (Some (1400 # 100)).
Proof. vm_compute. reflexivity. Qed.

Example brickwork_at_the_limit :
  (λ r, r !! "deductions"%string) <$>
    brickwork_wall 5 (23 # 100) 3
      (Some [EDict {[ "w" := VFloat (1 # 2); "h" := VFloat (1 # 5) ]}])
      (1 # 10) "cum"
  = Ok (Some (0 # 1000)).
Proof. vm_compute. reflexivity. Qed.

Example steel_slab_run :
  (λ r, r !! "net"%string) <$> steel_slab_single_layer 4 3 10 150 "kg"
  = Ok (Some (5185 # 100)).
Proof. vm_compute. reflexivity. Qed.

(** ** Comparisons, [max] and [int] *)

Section Numbers.

Implicit Types x y : Q.

Lemma ltb_lt x y : Py.ltb x y = true ↔ x < y.
Proof.
  unfold Py.ltb. rewrite negb_true_iff, <- not_true_iff_false, Qle_bool_iff.
  split; [apply Qnot_le_lt | apply Qlt_not_le].
Qed.

Lemma ltb_ge x y : Py.ltb x y = false ↔ y <= x.
Proof.
  unfold Py.ltb. rewrite negb_false_iff. apply Qle_bool_iff.
Qed.

Lemma leb_le x y : Py.leb x y = true ↔ x <= y.
Proof. apply Qle_bool_iff. Qed.

Lemma leb_gt x y : Py.leb x y = false ↔ y < x.
Proof.
  unfold Py.leb. rewrite <- not_true_iff_false, Qle_bool_iff.
  split; [apply Qnot_le_lt | apply Qlt_not_le].
Qed.

Lemma max_l x y : y <= x → Py.max x y = x.
Proof.
  intros H. unfold Py.max. destruct (Py.ltb x y) eqn:E; [|done].
  apply ltb_lt in E. lra.
Qed.

Lemma max_r x y : x < y → Py.max x y = y.
Proof. intros H. unfold Py.max. apply ltb_lt in H. by rewrite H. Qed.

Lemma max_Qmax x y : Py.max x y == Qmax x y.
Proof.
  destruct (Qlt_le_dec x y) as [H|H].
  - rewrite (max_r _ _ H). symmetry. apply Q.max_r. lra.
  - rewrite (max_l _ _ H). symmetry. by apply Q.max_l.
Qed.

Lemma max_0_nonneg x : 0 <= Py.max x 0.
Proof.
  destruct (Qlt_le_dec x 0) as [H|H].
  - rewrite (max_r _ _ H). lra.
  - by rewrite (max_l _ _ H).
Qed.

Lemma max_0_id x : 0 <= x → Py.max x 0 = x.
Proof. apply max_l. Qed.

Lemma max_0_neg x : x <= 0 → Py.max x 0 == 0.
Proof.
  intros H. rewrite max_Qmax. by apply Q.max_r.
Qed.

Global Instance max_proper : Proper (Qeq ==> Qeq ==> Qeq) Py.max.
Proof.
  intros x x' Ex y y' Ey. rewrite !max_Qmax. by rewrite Ex, Ey.
Qed.

Lemma maxz_max (a b : Z) : Py.maxz a b = Z.max a b.
Proof. unfold Py.maxz. destruct (Z.ltb_spec a b); lia. Qed.

Lemma int_inject_Z (z : Z) : Py.int (inject_Z z) = z.
Proof. unfold Py.int. simpl. apply Z.quot_1_r. Qed.

Lemma int_nonneg x : 0 <= x → (0 <= Py.int x)%Z.
Proof.
  intros H. unfold Py.int. apply Z.quot_pos; [|lia].
  unfold Qle in H. simpl in H. lia.
Qed.

Lemma inject_Z_floor_nonneg x : 0 <= x → 0 <= inject_Z (Qfloor x).
Proof.
  intros H. change 0 with (inject_Z 0). rewrite <- Zle_Qle.
  change 0%Z with (Qfloor (inject_Z 0)). by apply Qfloor_resp_le.
Qed.

End Numbers.

(** ** Rounding *)

Section Rounding.

Implicit Types (x y : Q) (k : nat).

Lemma scale_Q_pos k : 0 < inject_Z (Z.pos (Py.scale k)).
Proof. reflexivity. Qed.

Global Instance round_half_even_proper :
  Proper (Qeq ==> eq) Py.round_half_even.
Proof.
  intros x y E. unfold Py.round_half_even.
  rewrite (Qfloor_comp _ _ E).
  assert (Qcompare (x - inject_Z (Qfloor y)) (1 # 2)
          = Qcompare (y - inject_Z (Qfloor y)) (1 # 2)) as ->; [|done].
  by rewrite E.
Qed.

Global Instance round_proper : Proper (Qeq ==> eq ==> eq) Py.round.
Proof.
  intros x y E k ? <-. unfold Py.round.
  f_equal. apply round_half_even_proper. by rewrite E.
Qed.

Lemma round_half_even_Z (z : Z) : Py.round_half_even (inject_Z z) = z.
Proof.
  unfold Py.round_half_even. rewrite Qfloor_Z.
  destruct (Qcompare_spec (inject_Z z - inject_Z z) (1 # 2)) as [E|E|E];
    [lra | done | lra].
Qed.

(** The nearest integer is within one half. *)
Lemma round_half_even_near x :
  Qabs (inject_Z (Py.round_half_even x) - x) <= 1 # 2.
Proof.
  unfold Py.round_half_even.
  pose proof (Qfloor_le x) as Hl. pose proof (Qlt_floor x) as Hu.
  rewrite inject_Z_plus in Hu. change (inject_Z 1) with 1 in Hu.
  destruct (Qcompare_spec (x - inject_Z (Qfloor x)) (1 # 2)) as [E|E|E];
    [destruct (Z.even (Qfloor x))| |];
    rewrite ?inject_Z_plus; change (inject_Z 1) with 1;
    apply Qabs_Qle_condition; lra.
Qed.

Lemma round_half_even_nonneg x : 0 <= x → (0 <= Py.round_half_even x)%Z.
Proof.
  intros H. unfold Py.round_half_even.
  assert (0 <= Qfloor x)%Z as Hf.
  { change 0%Z with (Qfloor (inject_Z 0)). by apply Qfloor_resp_le. }
  destruct (Qcompare _ _); [destruct (Z.even _)| |]; lia.
Qed.

Lemma round_has_decimals x k : has_decimals k (Py.round x k).
Proof. by eexists. Qed.

(** Rounding leaves a number alone that already has [k] decimals. *)
Lemma round_decimal x k : has_decimals k x → Py.round x k == x.
Proof.
  intros [z Hz]. unfold Py.round.
  assert (x * inject_Z (Z.pos (Py.scale k)) == inject_Z z) as ->.
  { rewrite Hz, Qmake_Qdiv. field. by intros Hc. }
  rewrite round_half_even_Z. by symmetry.
Qed.

Lemma round_idempotent x k : Py.round (Py.round x k) k == Py.round x k.
Proof. apply round_decimal, round_has_decimals. Qed.

Lemma round_nonneg x k : 0 <= x → 0 <= Py.round x k.
Proof.
  intros H. unfold Py.round, Qle. simpl.
  pose proof (scale_Q_pos k) as Hs.
  assert (0 <= Py.round_half_even (x * inject_Z (Z.pos (Py.scale k))))%Z.
  { apply round_half_even_nonneg. apply Qmult_le_0_compat; lra. }
  lia.
Qed.

Lemma round_0 k : Py.round 0 k == 0.
Proof. apply round_decimal. exists 0%Z. reflexivity. Qed.

(** [round(x, k)] is within half a unit of the last decimal. *)
Lemma round_near x k :
  Qabs (Py.round x k - x) <= 1 # (2 * Py.scale k).
Proof.
  pose proof (round_half_even_near (x * inject_Z (Z.pos (Py.scale k)))) as H.
  unfold Py.round. set (z := Py.round_half_even _) in *.
  set (s := Py.scale k) in *.
  assert (0 < inject_Z (Z.pos s)) as Hs by reflexivity.
  apply Qabs_Qle_condition in H. apply Qabs_Qle_condition.
  assert ((z # s) == inject_Z z / inject_Z (Z.pos s)) as -> by apply Qmake_Qdiv.
  assert ((1 # 2 * s) == (1 # 2) / inject_Z (Z.pos s)) as ->.
  { rewrite (Qmake_Qdiv 1 (2 * s)). rewrite Pos2Z.inj_mul, inject_Z_mult.
    field. try split; by intros Hc. }
  set (S := inject_Z (Z.pos s)) in *.
  destruct H as [H1 H2]. split.
  - apply (Qmult_le_r _ _ S Hs).
    assert ((inject_Z z / S - x) * S == inject_Z z - x * S) as ->
        by (field; lra).
    assert (- ((1 # 2) / S) * S == - (1 # 2)) as -> by (field; lra).
    done.
  - apply (Qmult_le_r _ _ S Hs).
    assert ((inject_Z z / S - x) * S == inject_Z z - x * S) as ->
        by (field; lra).
    assert ((1 # 2) / S * S == 1 # 2) as -> by (field; lra).
    done.
Qed.

End Rounding.

(** ** Numbers with [k] decimals *)

Section Decimals.

Implicit Types (x y : Q) (k : nat).

Global Instance has_decimals_proper k : Proper (Qeq ==> iff) (has_decimals k).
Proof.
  intros x y E. unfold has_decimals.
  split; intros [z Hz]; exists z; by rewrite <- Hz, E.
Qed.

Lemma has_decimals_0 k : has_decimals k 0.
Proof. exists 0%Z. reflexivity. Qed.

Lemma has_decimals_plus k x y :
  has_decimals k x → has_decimals k y → has_decimals k (x + y).
Proof.
  intros [a Ha] [b Hb]. exists (a + b)%Z. rewrite Ha, Hb.
  unfold Qeq, Qplus. simpl. nia.
Qed.

Lemma has_decimals_opp k x : has_decimals k x → has_decimals k (- x).
Proof.
  intros [a Ha]. exists (- a)%Z. rewrite Ha. reflexivity.
Qed.

Lemma has_decimals_minus k x y :
  has_decimals k x → has_decimals k y → has_decimals k (x - y).
Proof.
  intros Hx Hy. apply has_decimals_plus; [done|]. by apply has_decimals_opp.
Qed.

Lemma has_decimals_max_0 k x : has_decimals k x → has_decimals k (Py.max x 0).
Proof.
  intros Hx. unfold Py.max. destruct (Py.ltb x 0); [|done].
  apply has_decimals_0.
Qed.

(** The net of [to_dict]: rounding the clamped balance of three rounded
    quantities changes nothing. *)
Lemma net_of_rounded k g d a :
  has_decimals k g → has_decimals k d → has_decimals k a →
  let n := Py.round (Py.max (g - d + a) 0) k in
  0 <= n ∧ n == Qmax (g - d + a) 0.
Proof.
  intros Hg Hd Ha n. split.
  - apply round_nonneg, max_0_nonneg.
  - unfold n. rewrite round_decimal; [apply max_Qmax|].
    apply has_decimals_max_0, has_decimals_plus; [|done].
    by apply has_decimals_minus.
Qed.

End Decimals.

(** ** Unit tags *)

Section Units.

(** The number of decimals [_round_for_unit] uses depends on the tag
    alone. *)
Lemma _round_for_unit_places (unit : string) :
  ∃ k : nat,
    (k = 2 ∨ k = 3)%nat ∧ ∀ v, _round_for_unit v unit = Py.round v k.
Proof.
  unfold _round_for_unit.
  repeat case_bool_decide; eauto.
Qed.

Global Instance _round_for_unit_proper :
  Proper (Qeq ==> eq ==> eq) _round_for_unit.
Proof.
  intros x y E u ? <-.
  destruct (_round_for_unit_places u) as (k & _ & Hk).
  rewrite !Hk. by apply round_proper.
Qed.

End Units.

(** ** Result records *)

Section Records.

Import MeasureResult.

Lemma to_dict_fields (mr : MeasureResult.t) (k : nat) :
  meta mr = ∅ →
  let g := Py.round (gross mr) k in
  let d := Py.round (deductions mr) k in
  let a := Py.round (additions mr) k in
  has_fields (to_dict mr k) g d a (Py.round (Py.max (g - d + a) 0) k).
Proof.
  intros Hm. unfold to_dict. rewrite Hm, (left_id_L ∅ (∪)).
  repeat split; by simplify_map_eq.
Qed.

Lemma to_dict_balanced (mr : MeasureResult.t) (k : nat) :
  meta mr = ∅ → balanced (to_dict mr k).
Proof.
  intros Hm. do 4 eexists. split; [by apply to_dict_fields|].
  apply net_of_rounded; apply round_has_decimals.
Qed.

Lemma volume_fields L B D ded unit :
  let gross_r := _round_for_unit (Py.max L 0 * Py.max B 0 * Py.max D 0) unit in
  let ded_r := _round_for_unit (Py.max ded 0) unit in
  has_fields (volume L B D ded unit) gross_r ded_r 0
    (_round_for_unit (Py.max (gross_r - ded_r) 0) unit).
Proof. unfold volume. repeat split; by simplify_map_eq. Qed.

Lemma volume_balanced L B D ded unit : balanced (volume L B D ded unit).
Proof.
  do 4 eexists. split; [apply volume_fields|].
  destruct (_round_for_unit_places unit) as (k & _ & Hk). rewrite !Hk.
  pose proof (net_of_rounded k
    (Py.round (Py.max L 0 * Py.max B 0 * Py.max D 0) k)
    (Py.round (Py.max ded 0) k) 0
    (round_has_decimals _ _) (round_has_decimals _ _) (has_decimals_0 _))
    as [H1 H2].
  cbv zeta in H1, H2.
  assert (∀ x y : Q, x - y + 0 == x - y) as E by (intros; ring).
  split.
  - by rewrite <- E.
  - rewrite <- (E _ _) at 1. done.
Qed.

End Records.

(** ** Normalisation of openings *)

Section Normalisation.

Lemma py_float_field (d : gmap string pyval) (key : string) (dflt : Q) :
  from_option is_number true (d !! key) = true →
  py_float (dict_get d key (VFloat dflt)) = Ok (number_at d key dflt).
Proof.
  unfold dict_get, number_at. destruct (d !! key) as [[]|]; simpl; done.
Qed.

Lemma survivor_dict (d : gmap string pyval) :
  let w := number_at d "w" 0 in
  let h := number_at d "h" 0 in
  let n := number_at d "n" 1 in
  survivor (EDict d)
  = if Py.leb w 0 || Py.leb h 0 || Py.leb n 0 then None
    else Some (Opening w h n).
Proof.
  intros w h n. unfold survivor. fold w h n.
  destruct (Qlt_le_dec 0 w) as [Hw|Hw];
    [apply leb_gt in Hw|apply leb_le in Hw]; rewrite Hw; [|done].
  destruct (Qlt_le_dec 0 h) as [Hh|Hh];
    [apply leb_gt in Hh|apply leb_le in Hh]; rewrite Hh; [|done].
  destruct (Qlt_le_dec 0 n) as [Hn|Hn];
    [apply leb_gt in Hn|apply leb_le in Hn]; rewrite Hn; done.
Qed.

Lemma normalise_loop_survivors (l : list entry) :
  forallb well_typed l = true →
  ∀ out, normalise_loop l out = Ok (out ++ omap survivor l).
Proof.
  induction l as [|e l IH]; intros Hwt out.
  - simpl. by rewrite app_nil_r.
  - simpl in Hwt. apply andb_prop in Hwt as [He Hl].
    destruct e as [d|v].
    + simpl in He.
      apply andb_prop in He as [Hw He]. apply andb_prop in He as [Hh He].
      apply andb_prop in He as [Hn _].
      cbn [normalise_loop].
      rewrite (py_float_field d "w" 0 Hw), (py_float_field d "h" 0 Hh),
        (py_float_field d "n" 1 Hn).
      cbn [mbind pyres_bind]. cbn [omap list_omap].
      rewrite survivor_dict.
      destruct (_ || _).
      * by apply IH.
      * rewrite (IH Hl). by rewrite <- app_assoc.
    + simpl. by apply IH.
Qed.

Lemma normalise_openings_returns (openings : option (list entry)) :
  forallb well_typed (default [] openings) = true →
  _normalise_openings openings = Ok (omap survivor (default [] openings)).
Proof.
  intros Hwt. destruct openings as [[|e l]|]; try done.
  exact (normalise_loop_survivors (e :: l) Hwt []).
Qed.

Lemma survivor_positive (e : entry) (o : opening) :
  survivor e = Some o → 0 < o_w o ∧ 0 < o_h o ∧ 0 < o_n o.
Proof.
  destruct e as [d|v]; [|done]. unfold survivor.
  repeat destruct (Qlt_le_dec _ _); try done.
  by intros [= <-].
Qed.


End Normalisation.




(** ** Opening deductions: the [ded += ...] loops *)

Section Deductions.

Import MeasureResult.




End Deductions.






(** ** Earthwork *)

(** C6.  [trench_excavation], with length, bottom breadth and depth clamped
    at 0: a positive side slope gives the trapezoidal gross
    [length * ((b + (b + 2 * slope * depth)) / 2) * depth], a slope that is
    zero or negative gives [length * b * depth]; the record carries that
    gross rounded to 3 decimals.  The gross of
    [trench_excavation(10, 1, 1.5, 0.5)] is above that of
    [trench_excavation(10, 1, 1.5, 0)]. *)
Theorem trench_excavation_gross
    (length breadth_bottom depth side_slope_h_over_v deductions : Q)
    (unit : string) :
  let L := Qmax length 0 in
  let b := Qmax breadth_bottom 0 in
  let D := Qmax depth 0 in
  let mr :=
    trench_excavation_mr length breadth_bottom depth side_slope_h_over_v
      deductions unit in
  (0 < side_slope_h_over_v →
   MeasureResult.gross mr
   == L * ((b + (b + 2 * side_slope_h_over_v * D)) / 2) * D) ∧
  (side_slope_h_over_v <= 0 → MeasureResult.gross mr == L * b * D) ∧
  trench_excavation length breadth_bottom depth side_slope_h_over_v
    deductions unit !! "gross"%string
  = Some (Py.round (MeasureResult.gross mr) 3) ∧
  ∃ sloped vertical,
    trench_excavation 10 1 (3 # 2) (1 # 2) 0 "cum" !! "gross"%string
    = Some sloped ∧
    trench_excavation 10 1 (3 # 2) 0 0 "cum" !! "gross"%string
    = Some vertical ∧
    vertical < sloped.
Proof.
  intros L b D mr.
  split; [|split; [|split]].
  - intros Hs. apply ltb_lt in Hs.
    unfold mr, trench_excavation_mr. rewrite Hs. cbn.
    unfold L, b, D. by rewrite !max_Qmax.
  - intros Hs. apply ltb_ge in Hs.
    unfold mr, trench_excavation_mr. rewrite Hs. cbn.
    unfold L, b, D. by rewrite !max_Qmax.
  - unfold trench_excavation. fold mr.
    by destruct (to_dict_fields mr 3 eq_refl) as (-> & _).
  - exists (26250 # 1000), (15000 # 1000).
    split; [vm_compute; reflexivity|]. split; [vm_compute; reflexivity|].
    reflexivity.
Qed.

Lemma trench_excavation_gross_witness :
  MeasureResult.gross (trench_excavation_mr 10 1 (3 # 2) (1 # 2) 0 "cum")
  == Qmax 10 0
     * ((Qmax 1 0 + (Qmax 1 0 + 2 * (1 # 2) * Qmax (3 # 2) 0)) / 2)
     * Qmax (3 # 2) 0 ∧
  MeasureResult.gross (trench_excavation_mr 10 1 (3 # 2) (-1) 0 "cum")
  == Qmax 10 0 * Qmax 1 0 * Qmax (3 # 2) 0.
Proof.
  split.
  - apply (trench_excavation_gross 10 1 (3 # 2) (1 # 2) 0 "cum"). reflexivity.
  - apply (trench_excavation_gross 10 1 (3 # 2) (-1) 0 "cum").
    vm_compute. discriminate.
Defined.

(** ** Volume *)



(** ** Masonry: stone as brick *)

(** C9.  [stone_masonry_wall] returns what [brickwork_wall] returns on the
    same arguments, an escaping exception included. *)
Theorem stone_masonry_wall_is_brickwork_wall
    (length thickness height : Q) (openings : option (list entry))
    (small_opening_limit : Q) (unit : string) :
  stone_masonry_wall length thickness height openings small_opening_limit unit
  = brickwork_wall length thickness height openings small_opening_limit unit.
Proof. reflexivity. Qed.

(** ** Reinforcement *)

Section Reinforcement.

Lemma floordiv_spacing (x spacing_mm : Q) :
  Py.floordiv x (Py.max spacing_mm 1)
  = Ok (inject_Z (Qfloor (x / Py.max spacing_mm 1))).
Proof.
  unfold Py.floordiv.
  destruct (Qeq_bool (Py.max spacing_mm 1) 0) eqn:E; [|done].
  apply Qeq_bool_eq in E. rewrite max_Qmax in E.
  pose proof (Q.le_max_r spacing_mm 1). lra.
Qed.

Lemma n_bars_value (slab_width spacing_mm : Q) :
  n_bars (Py.max slab_width 0) (Py.max spacing_mm 1)
  = Ok (Qfloor (Py.max slab_width 0 * 1000 / Py.max spacing_mm 1) + 1)%Z.
Proof.
  unfold n_bars. rewrite floordiv_spacing.
  cbn [mbind pyres_bind mret pyres_ret]. by rewrite int_inject_Z.
Qed.

Lemma quotient_nonneg (slab_width spacing_mm : Q) :
  0 <= Py.max slab_width 0 * 1000 / Py.max spacing_mm 1.
Proof.
  pose proof (max_0_nonneg slab_width) as Hw.
  assert (1 <= Py.max spacing_mm 1) as Hs
      by (rewrite max_Qmax; apply Q.le_max_r).
  apply Qle_shift_div_l; lra.
Qed.

Lemma n_bars_positive (slab_width spacing_mm : Q) :
  (1 <= Qfloor (Py.max slab_width 0 * 1000 / Py.max spacing_mm 1) + 1)%Z.
Proof.
  pose proof (quotient_nonneg slab_width spacing_mm) as Hq.
  apply Qfloor_resp_le in Hq. change (Qfloor 0) with 0%Z in Hq. lia.
Qed.

Lemma steel_slab_returns
    (slab_length slab_width bar_dia_mm spacing_mm : Q) (unit : string) :
  steel_slab_single_layer slab_length slab_width bar_dia_mm spacing_mm unit
  = Ok (steel_from_bars bar_dia_mm (Py.max slab_length 0)
          (inject_Z
             (Qfloor (Py.max slab_width 0 * 1000 / Py.max spacing_mm 1) + 1))
          unit).
Proof.
  unfold steel_slab_single_layer. rewrite n_bars_value.
  cbn [mbind pyres_bind mret pyres_ret].
  pose proof (n_bars_positive slab_width spacing_mm) as Hn.
  assert ((Qfloor (Py.max slab_width 0 * 1000 / Py.max spacing_mm 1) + 1
           <=? 0)%Z = false) as -> by (apply Z.leb_gt; lia).
  done.
Qed.

End Reinforcement.



(** ** Flooring with wastage *)

Section Wastage.

Import MeasureResult.

Lemma floor_area_inv length breadth cutouts unit base :
  floor_area length breadth cutouts unit = Ok base →
  ∃ mr, meta mr = ∅ ∧ additions mr = 0 ∧ base = to_dict mr 2.
Proof.
  unfold floor_area, floor_area_mr.
  destruct (_normalise_openings cutouts) as [norm|e]; [|done].
  cbn [mbind pyres_bind mret pyres_ret]. intros [= <-].
  eexists. split; [|split; [|reflexivity]]; reflexivity.
Qed.

End Wastage.

(** C7.  [floor_area_with_wastage]: it first takes the record of
    [floor_area] and, when that call returns, returns as well.  With
    [wastage_factor > 1] the addition it records is the net of that record
    times [wastage_factor - 1] (the net, not the gross).  With
    [wastage_factor <= 1], so in particular with 1.0, the additions entry of
    the result is 0 and its net entry is the net of [floor_area]. *)
Theorem floor_area_with_wastage_on_net
    (length breadth wastage_factor : Q) (cutouts : option (list entry))
    (unit : string) (base : gmap string Q) :
  floor_area length breadth cutouts unit = Ok base →
  ∃ net_base mr,
    base !! "net"%string = Some net_base ∧
    floor_area_with_wastage_mr length breadth wastage_factor cutouts unit
    = Ok mr ∧
    floor_area_with_wastage length breadth wastage_factor cutouts unit
    = Ok (MeasureResult.to_dict mr 2) ∧
    (1 < wastage_factor →
     MeasureResult.additions mr == net_base * (wastage_factor - 1)) ∧
    (wastage_factor <= 1 →
     ∃ a n,
       MeasureResult.to_dict mr 2 !! "additions"%string = Some a ∧
       MeasureResult.to_dict mr 2 !! "net"%string = Some n ∧
       a == 0 ∧ n == net_base).
Proof.
  intros Hbase.
  destruct (floor_area_inv _ _ _ _ _ Hbase) as (mr0 & Hm0 & Hadd0 & ->).
  destruct (to_dict_fields mr0 2 Hm0) as (Hg & Hd & Ha & Hn).
  set (g := Py.round (MeasureResult.gross mr0) 2) in *.
  set (d := Py.round (MeasureResult.deductions mr0) 2) in *.
  set (a0 := Py.round (MeasureResult.additions mr0) 2) in *.
  set (nb := Py.round (Py.max (g - d + a0) 0) 2) in *.
  set (extra := if Py.ltb 1 wastage_factor then nb * (wastage_factor - 1)
                else 0).
  assert (floor_area_with_wastage_mr length breadth wastage_factor cutouts unit
          = Ok (MeasureResult.make g d extra unit)) as Emr.
  { unfold floor_area_with_wastage_mr, item. rewrite Hbase.
    cbn [mbind pyres_bind]. rewrite Hn. cbn [mbind pyres_bind].
    rewrite Hg. cbn [mbind pyres_bind]. rewrite Hd. done. }
  exists nb, (MeasureResult.make g d extra unit).
  split; [done|]. split; [done|]. split.
  { unfold floor_area_with_wastage. by rewrite Emr. }
  split.
  - intros Hw. apply ltb_lt in Hw. cbn. unfold extra. by rewrite Hw.
  - intros Hw. apply ltb_ge in Hw.
    destruct (to_dict_fields (MeasureResult.make g d extra unit) 2 eq_refl)
      as (_ & _ & Ha' & Hn').
    do 2 eexists. split; [exact Ha'|]. split; [exact Hn'|].
    cbn [MeasureResult.gross MeasureResult.deductions MeasureResult.additions
         MeasureResult.make].
    unfold extra. rewrite Hw.
    assert (has_decimals 2 g) as Dg by apply round_has_decimals.
    assert (has_decimals 2 d) as Dd by apply round_has_decimals.
    assert (has_decimals 2 a0) as Da by apply round_has_decimals.
    split; [apply round_0|].
    rewrite (round_decimal g 2 Dg), (round_decimal d 2 Dd), round_0.
    unfold nb, a0. by rewrite Hadd0, round_0.
Qed.

Lemma floor_area_with_wastage_on_net_witness :
  ∃ net_base mr,
    MeasureResult.to_dict (MeasureResult.make 12 (9 # 4) 0 "sqm") 2
      !! "net"%string = Some net_base ∧
    floor_area_with_wastage_mr 4 3 1
      (Some [EDict {[ "w" := VFloat (3 # 2); "h" := VFloat (3 # 2) ]}]) "sqm"
    = Ok mr ∧
    floor_area_with_wastage 4 3 1
      (Some [EDict {[ "w" := VFloat (3 # 2); "h" := VFloat (3 # 2) ]}]) "sqm"
    = Ok (MeasureResult.to_dict mr 2) ∧
    (1 < 1 → MeasureResult.additions mr == net_base * (1 - 1)) ∧
    (1 <= 1 →
     ∃ a n,
       MeasureResult.to_dict mr 2 !! "additions"%string = Some a ∧
       MeasureResult.to_dict mr 2 !! "net"%string = Some n ∧
       a == 0 ∧ n == net_base).
Proof.
  apply (floor_area_with_wastage_on_net 4 3 1
           (Some [EDict {[ "w" := VFloat (3 # 2); "h" := VFloat (3 # 2) ]}])
           "sqm").
  vm_compute. reflexivity.
Defined.

(** ** The shape of every result record *)

Section Shape.

Import MeasureResult.

Lemma floor_area_with_wastage_value
    (length breadth wastage_factor : Q) (cutouts : option (list entry))
    (unit : string) (g0 d0 : Q) :
  floor_area length breadth cutouts unit
  = Ok (to_dict (MeasureResult.make g0 d0 0 unit) 2) →
  let g := Py.round g0 2 in
  let d := Py.round d0 2 in
  let net_base := Py.round (Py.max (g - d + Py.round 0 2) 0) 2 in
  let extra :=
    if Py.ltb 1 wastage_factor then net_base * (wastage_factor - 1) else 0 in
  floor_area_with_wastage length breadth wastage_factor cutouts unit
  = Ok (to_dict (MeasureResult.make g d extra unit) 2).
Proof.
  intros Hbase g d net_base extra.
  destruct (to_dict_fields (MeasureResult.make g0 d0 0 unit) 2 eq_refl)
    as (Hg & Hd & _ & Hn).
  unfold floor_area_with_wastage, floor_area_with_wastage_mr, item.
  rewrite Hbase. cbn [mbind pyres_bind]. rewrite Hn. cbn [mbind pyres_bind].
  rewrite Hg. cbn [mbind pyres_bind]. rewrite Hd. done.
Qed.

(** A call other than [volume] either lets the exception of the
    normalisation escape, or returns [to_dict] of a [MeasureResult] whose
    quantities do not depend on the unit tag, at the [round_to] of the
    method. *)
Lemma run_shape (c : call) (k : nat) :
  round_to_of c = Some k →
  match _normalise_openings (openings_of c) with
  | Raise e => ∀ unit, run c unit = Raise e
  | Ok _ =>
      ∃ g d a, ∀ unit,
        run c unit = Ok (to_dict (MeasureResult.make g d a unit) k)
  end.
Proof.
  destruct c; intros [= <-]; cbn [openings_of].
  - do 3 eexists. intros unit. reflexivity.
  - do 3 eexists. intros unit. reflexivity.
  - do 3 eexists. intros unit. reflexivity.
  - do 3 eexists. intros unit. reflexivity.
  - cbn [run]. unfold brickwork_wall, brickwork_wall_mr.
    destruct (_normalise_openings openings) as [norm|e]; [|done].
    do 3 eexists. intros unit. reflexivity.
  - cbn [run].
    unfold stone_masonry_wall, brickwork_wall, brickwork_wall_mr.
    destruct (_normalise_openings openings) as [norm|e]; [|done].
    do 3 eexists. intros unit. reflexivity.
  - cbn [run]. unfold wall_finish_area, wall_finish_area_mr.
    destruct (_normalise_openings openings) as [norm|e]; [|done].
    do 3 eexists. intros unit. reflexivity.
  - cbn [run]. unfold ceiling_finish_area, ceiling_finish_area_mr.
    destruct (_normalise_openings openings) as [norm|e]; [|done].
    do 3 eexists. intros unit. reflexivity.
  - cbn [run]. unfold floor_area, floor_area_mr.
    destruct (_normalise_openings cutouts) as [norm|e]; [|done].
    do 3 eexists. intros unit. reflexivity.
  - cbn [run].
    destruct (_normalise_openings cutouts) as [norm|e] eqn:E.
    + do 3 eexists. intros unit.
      apply floor_area_with_wastage_value.
      unfold floor_area, floor_area_mr. rewrite E. reflexivity.
    + intros unit.
      unfold floor_area_with_wastage, floor_area_with_wastage_mr,
        floor_area, floor_area_mr.
      by rewrite E.
  - do 3 eexists. intros unit. reflexivity.
  - do 3 eexists. intros unit. reflexivity.
  - cbn [run _normalise_openings].
    unfold steel_from_bars, steel_from_bars_mr.
    destruct (_ || _); do 3 eexists; intros unit; reflexivity.
  - cbn [run _normalise_openings].
    setoid_rewrite steel_slab_returns.
    unfold steel_from_bars, steel_from_bars_mr.
    destruct (_ || _); do 3 eexists; intros unit; reflexivity.
Qed.

Lemma run_balanced (c : call) (unit : string) (r : gmap string Q) :
  run c unit = Ok r → balanced r.
Proof.
  destruct (round_to_of c) as [k|] eqn:Ek.
  - pose proof (run_shape c k Ek) as H.
    destruct (_normalise_openings (openings_of c)) as [norm|e].
    + destruct H as (g & d & a & H). rewrite H. intros [= <-].
      by apply to_dict_balanced.
    + by rewrite H.
  - destruct c; try done. intros [= <-]. apply volume_balanced.
Qed.

Lemma run_returns (c : call) (unit : string) :
  forallb well_typed (default [] (openings_of c)) = true →
  ∃ r, run c unit = Ok r.
Proof.
  intros Hwt. apply normalise_openings_returns in Hwt.
  destruct (round_to_of c) as [k|] eqn:Ek.
  - pose proof (run_shape c k Ek) as H. rewrite Hwt in H.
    destruct H as (g & d & a & H). rewrite H. by eexists.
  - destruct c; try done. by eexists.
Qed.

End Shape.

(** C2.  Every method that returns a result record, on every input: when
    the call returns, the net entry is not negative and is
    [max(gross - deductions + additions, 0)] of the rounded gross,
    deductions and additions entries of the same record; and the call does
    return when its openings are well typed. *)
Theorem net_never_negative (c : call) (unit : string) :
  (∀ r, run c unit = Ok r →
     ∃ g d a n,
       has_fields r g d a n ∧ 0 <= n ∧ n == Qmax (g - d + a) 0) ∧
  (forallb well_typed (default [] (openings_of c)) = true →
   ∃ r, run c unit = Ok r ∧ balanced r).
Proof.
  split.
  - intros r Hr. by apply (run_balanced c unit).
  - intros Hwt. destruct (run_returns c unit Hwt) as [r Hr].
    exists r. split; [done|]. by apply (run_balanced c unit).
Qed.

Lemma net_never_negative_witness :
  (∃ g d a n,
     has_fields (volume 1 1 1 5 "cum") g d a n ∧
     0 <= n ∧ n == Qmax (g - d + a) 0) ∧
  (∃ r,
     run (CFloorArea 1 1
            (Some [EDict {[ "w" := VFloat 2; "h" := VFloat 2 ]}])) "sqm"
     = Ok r ∧ balanced r).
Proof.
  split.
  - apply (net_never_negative (CVolume 1 1 1 5) "cum"). reflexivity.
  - apply (net_never_negative
             (CFloorArea 1 1
                (Some [EDict {[ "w" := VFloat 2; "h" := VFloat 2 ]}])) "sqm").
    vm_compute. reflexivity.
Defined.

(** ** Unit tags and decimals *)




(** * Further properties of the engine *)

(** ** Rounding keeps the order *)

Section RoundingOrder.

Implicit Types (x y : Q) (k : nat).

Lemma round_half_even_mono x y :
  x <= y → (Py.round_half_even x <= Py.round_half_even y)%Z.
Proof.
  intros Hxy.
  pose proof (round_half_even_near x) as Hx.
  pose proof (round_half_even_near y) as Hy.
  apply Qabs_Qle_condition in Hx. apply Qabs_Qle_condition in Hy.
  destruct (Z_lt_le_dec (Py.round_half_even y) (Py.round_half_even x))
    as [Hlt|Hle]; [|done].
  assert (inject_Z (Py.round_half_even y) + 1
          <= inject_Z (Py.round_half_even x)) as Hz.
  { change 1 with (inject_Z 1). rewrite <- inject_Z_plus, <- Zle_Qle. lia. }
  assert (x == y) as E by lra.
  rewrite E in Hlt. lia.
Qed.

Lemma round_mono x y k : x <= y → Py.round x k <= Py.round y k.
Proof.
  intros Hxy. unfold Py.round, Qle. cbn [Qnum Qden].
  apply Z.mul_le_mono_nonneg_r; [lia|].
  apply round_half_even_mono.
  apply Qmult_le_compat_r; [done|]. apply Qlt_le_weak, scale_Q_pos.
Qed.

Lemma _round_for_unit_mono x y (unit : string) :
  x <= y → _round_for_unit x unit <= _round_for_unit y unit.
Proof.
  intros Hxy. destruct (_round_for_unit_places unit) as (k & _ & Hk).
  rewrite !Hk. by apply round_mono.
Qed.

Lemma _round_for_unit_nonneg x (unit : string) :
  0 <= x → 0 <= _round_for_unit x unit.
Proof.
  intros Hx. destruct (_round_for_unit_places unit) as (k & _ & Hk).
  rewrite Hk. by apply round_nonneg.
Qed.

Lemma _round_for_unit_0 (unit : string) : _round_for_unit 0 unit == 0.
Proof.
  destruct (_round_for_unit_places unit) as (k & _ & Hk).
  rewrite Hk. apply round_0.
Qed.

End RoundingOrder.

(** ** Normalisation: when it raises and what it returns *)

Section NormalisationOutcome.

Lemma py_float_not_number (d : gmap string pyval) (key : string) (dflt : Q) :
  from_option is_number true (d !! key) = false →
  py_float (dict_get d key (VFloat dflt)) = Raise TypeError.
Proof.
  unfold dict_get. destruct (d !! key) as [[]|]; simpl; done.
Qed.

Lemma normalise_loop_raises (l : list entry) :
  forallb well_typed l = false →
  ∀ out, normalise_loop l out = Raise TypeError.
Proof.
  induction l as [|e l IH]; intros Hwt out; [done|].
  simpl in Hwt. apply andb_false_iff in Hwt.
  destruct e as [d|v].
  - cbn [normalise_loop]. cbn [well_typed forallb] in Hwt.
    destruct (from_option is_number true (d !! "w"%string)) eqn:Ew.
    + rewrite (py_float_field d "w" 0 Ew). cbn [mbind pyres_bind].
      destruct (from_option is_number true (d !! "h"%string)) eqn:Eh.
      * rewrite (py_float_field d "h" 0 Eh). cbn [mbind pyres_bind].
        destruct (from_option is_number true (d !! "n"%string)) eqn:En.
        -- rewrite (py_float_field d "n" 1 En). cbn [mbind pyres_bind].
           destruct Hwt as [Hwt|Hwt]; [done|].
           destruct (_ || _); by apply IH.
        -- by rewrite (py_float_not_number d "n" 1 En).
      * by rewrite (py_float_not_number d "h" 0 Eh).
    + by rewrite (py_float_not_number d "w" 0 Ew).
  - destruct Hwt as [Hwt|Hwt]; [done|]. simpl. by apply IH.
Qed.

Lemma normalise_openings_raises_ill_typed (openings : option (list entry)) :
  forallb well_typed (default [] openings) = false →
  _normalise_openings openings = Raise TypeError.
Proof.
  intros Hwt. destruct openings as [[|e l]|]; try done.
  exact (normalise_loop_raises (e :: l) Hwt []).
Qed.

(** What [_normalise_openings] returns, when it returns, is the list of
    survivors. *)
Lemma normalise_openings_inv (openings : option (list entry)) norm :
  _normalise_openings openings = Ok norm →
  forallb well_typed (default [] openings) = true ∧
  norm = omap survivor (default [] openings).
Proof.
  intros H.
  destruct (forallb well_typed (default [] openings)) eqn:Hwt.
  - rewrite (normalise_openings_returns _ Hwt) in H. by injection H as <-.
  - by rewrite (normalise_openings_raises_ill_typed _ Hwt) in H.
Qed.

Lemma normalised_positive (openings : option (list entry)) norm :
  _normalise_openings openings = Ok norm →
  Forall (λ o, 0 < o_w o ∧ 0 < o_h o ∧ 0 < o_n o) norm.
Proof.
  intros H. apply normalise_openings_inv in H as [_ ->].
  apply Forall_forall. intros o Ho.
  apply list_elem_of_omap in Ho as (e & _ & He).
  by apply survivor_positive in He.
Qed.

Lemma omap_length_le {A B} (f : A → option B) (l : list A) :
  (length (omap f l) <= length l)%nat.
Proof.
  induction l as [|a l IH]; [done|]. cbn. destruct (f a); simpl; lia.
Qed.

End NormalisationOutcome.


(** Whenever [_normalise_openings] returns, every opening of the result has
    a positive width, height and count, and the result is no longer than the
    input. *)
Theorem normalise_openings_output (openings : option (list entry)) norm :
  _normalise_openings openings = Ok norm →
  Forall (λ o, 0 < o_w o ∧ 0 < o_h o ∧ 0 < o_n o) norm ∧
  (length norm <= length (default [] openings))%nat.
Proof.
  intros H. split; [by apply (normalised_positive openings)|].
  apply normalise_openings_inv in H as [_ ->].
  apply omap_length_le.
Qed.

Lemma normalise_openings_output_witness :
  Forall (λ o, 0 < o_w o ∧ 0 < o_h o ∧ 0 < o_n o)
    [Opening 1 (21 # 10) (inject_Z 2)] ∧
  (length [Opening 1 (21 # 10) (inject_Z 2)]
   <= length
        (default []
           (Some [EDict {[ "w" := VFloat 1; "h" := VFloat (21 # 10);
                           "n" := VInt 2 ]};
                  EDict {[ "w" := VFloat (-1); "h" := VFloat 1 ]}])))%nat.
Proof.
  apply (normalise_openings_output
           (Some [EDict {[ "w" := VFloat 1; "h" := VFloat (21 # 10);
                           "n" := VInt 2 ]};
                  EDict {[ "w" := VFloat (-1); "h" := VFloat 1 ]}])).
  vm_compute. reflexivity.
Defined.

(** Normalisation works entry by entry: the result for a concatenation is
    the concatenation of the results, when both parts normalise. *)
Theorem normalise_openings_app (l1 l2 : list entry) n1 n2 :
  _normalise_openings (Some l1) = Ok n1 →
  _normalise_openings (Some l2) = Ok n2 →
  _normalise_openings (Some (l1 ++ l2)) = Ok (n1 ++ n2).
Proof.
  intros H1 H2.
  apply normalise_openings_inv in H1 as [W1 ->].
  apply normalise_openings_inv in H2 as [W2 ->].
  change (default [] (Some l1)) with l1 in *.
  change (default [] (Some l2)) with l2 in *.
  rewrite (normalise_openings_returns (Some (l1 ++ l2)));
    change (default [] (Some (l1 ++ l2))) with (l1 ++ l2).
  - by rewrite omap_app.
  - rewrite forallb_app. by rewrite W1, W2.
Qed.

Lemma normalise_openings_app_witness :
  _normalise_openings
    (Some ([EDict {[ "w" := VFloat 1; "h" := VFloat 2 ]}; EOther VNone]
           ++ [EDict {[ "w" := VInt 3; "h" := VInt 1; "n" := VInt 4 ]}]))
  = Ok ([Opening 1 2 1] ++ [Opening (inject_Z 3) (inject_Z 1) (inject_Z 4)]).
Proof.
  apply normalise_openings_app; vm_compute; reflexivity.
Defined.

(** ** No negative quantities *)

Section NonNegative.

Import MeasureResult.

Lemma foldl_nonneg (step : Q → opening → Q) (norm : list opening) :
  (∀ acc o, positive_opening o → 0 <= acc → 0 <= step acc o) →
  Forall positive_opening norm →
  ∀ acc, 0 <= acc → 0 <= foldl step acc norm.
Proof.
  intros Hstep Hpos. induction Hpos as [|o norm Ho _ IH]; intros acc Hacc.
  - done.
  - cbn [foldl]. apply IH. by apply Hstep.
Qed.

Lemma area_one_pos (o : opening) : positive_opening o → 0 < area_one o.
Proof. intros (Hw & Hh & _). unfold area_one. nra. Qed.

Lemma brickwork_step_nonneg (thickness lim acc : Q) (o : opening) :
  0 <= thickness → positive_opening o → 0 <= acc →
  0 <= brickwork_step thickness lim acc o.
Proof.
  intros Ht Ho Hacc. pose proof (area_one_pos o Ho) as Ha.
  destruct Ho as (_ & _ & Hn).
  unfold brickwork_step. fold (area_one o).
  destruct (Py.leb _ _); [done|].
  assert (0 <= area_one o * thickness * o_n o); [|lra].
  apply Qmult_le_0_compat; [apply Qmult_le_0_compat|]; lra.
Qed.

Lemma wall_finish_step_nonneg (sides : Z) (small medium acc : Q) o :
  (0 <= sides)%Z → positive_opening o → 0 <= acc →
  0 <= wall_finish_step sides small medium acc o.
Proof.
  intros Hs Ho Hacc. pose proof (area_one_pos o Ho) as Ha.
  destruct Ho as (_ & _ & Hn).
  assert (0 <= inject_Z sides) as Hs'
      by (change 0 with (inject_Z 0); by rewrite <- Zle_Qle).
  unfold wall_finish_step. fold (area_one o).
  destruct (Py.leb _ small); [done|]. destruct (Py.leb _ medium).
  - assert (0 <= area_one o * o_n o); [|lra].
    apply Qmult_le_0_compat; lra.
  - assert (0 <= area_one o * inject_Z sides * o_n o); [|lra].
    apply Qmult_le_0_compat; [apply Qmult_le_0_compat|]; lra.
Qed.

Lemma ceiling_finish_step_nonneg (lim acc : Q) o :
  positive_opening o → 0 <= acc → 0 <= ceiling_finish_step lim acc o.
Proof.
  intros Ho Hacc. pose proof (area_one_pos o Ho) as Ha.
  destruct Ho as (_ & _ & Hn).
  unfold ceiling_finish_step. fold (area_one o).
  destruct (Py.ltb _ _); [|done].
  assert (0 <= area_one o * o_n o); [|lra].
  apply Qmult_le_0_compat; lra.
Qed.

Lemma floor_step_nonneg (acc : Q) o :
  positive_opening o → 0 <= acc → 0 <= floor_step acc o.
Proof.
  intros Ho Hacc. pose proof (area_one_pos o Ho) as Ha.
  destruct Ho as (_ & _ & Hn).
  unfold floor_step. fold (area_one o).
  assert (0 <= area_one o * o_n o); [|lra].
  apply Qmult_le_0_compat; lra.
Qed.

Lemma maxz_0_nonneg (z : Z) : (0 <= Py.maxz z 0)%Z.
Proof. rewrite maxz_max. lia. Qed.

Lemma inject_Z_nonneg (z : Z) : (0 <= z)%Z → 0 <= inject_Z z.
Proof. intros H. change 0 with (inject_Z 0). by rewrite <- Zle_Qle. Qed.

Lemma mult3_nonneg (x y z : Q) : 0 <= x → 0 <= y → 0 <= z → 0 <= x * y * z.
Proof. intros. apply Qmult_le_0_compat; [apply Qmult_le_0_compat|]; done. Qed.

Lemma plus_nonneg (x y : Q) : 0 <= x → 0 <= y → 0 <= x + y.
Proof. intros. lra. Qed.

End NonNegative.

Section NonNegativeRecords.

Import MeasureResult.

Local Ltac nonneg :=
  repeat first
    [ done
    | apply max_0_nonneg
    | apply mult3_nonneg
    | apply Qmult_le_0_compat
    | apply inject_Z_nonneg, maxz_0_nonneg ].

Lemma loop_nonneg (step : Q → opening → Q) openings norm :
  _normalise_openings openings = Ok norm →
  (∀ acc o, positive_opening o → 0 <= acc → 0 <= step acc o) →
  0 <= foldl step 0 norm.
Proof.
  intros Hn Hstep. apply foldl_nonneg; [done| |done].
  by apply (normalised_positive openings).
Qed.

Lemma trench_gross_nonneg (length breadth_bottom depth slope : Q) :
  0 <= (if Py.ltb 0 slope
        then Py.max length 0
             * ((Py.max breadth_bottom 0
                 + (Py.max breadth_bottom 0 + 2 * slope * Py.max depth 0)) / 2)
             * Py.max depth 0
        else Py.max length 0 * Py.max breadth_bottom 0 * Py.max depth 0).
Proof.
  pose proof (max_0_nonneg length). pose proof (max_0_nonneg breadth_bottom).
  pose proof (max_0_nonneg depth).
  destruct (Py.ltb 0 slope) eqn:E; [|by nonneg].
  apply ltb_lt in E. apply mult3_nonneg; [done| |done].
  apply Qle_shift_div_l; [lra|].
  assert (0 <= slope * Py.max depth 0) by (apply Qmult_le_0_compat; lra).
  lra.
Qed.

Lemma pit_gross_nonneg (length_bottom breadth_bottom depth slope : Q) :
  0 <= (if Py.ltb 0 slope
        then (Py.max length_bottom 0
              + (Py.max length_bottom 0 + 2 * slope * Py.max depth 0)) / 2
             * ((Py.max breadth_bottom 0
                 + (Py.max breadth_bottom 0 + 2 * slope * Py.max depth 0)) / 2)
             * Py.max depth 0
        else Py.max length_bottom 0 * Py.max breadth_bottom 0
             * Py.max depth 0).
Proof.
  pose proof (max_0_nonneg length_bottom).
  pose proof (max_0_nonneg breadth_bottom). pose proof (max_0_nonneg depth).
  destruct (Py.ltb 0 slope) eqn:E; [|by nonneg].
  apply ltb_lt in E.
  assert (0 <= slope * Py.max depth 0) by (apply Qmult_le_0_compat; lra).
  apply mult3_nonneg; [| |done]; (apply Qle_shift_div_l; [lra|]); lra.
Qed.

Lemma extra_nonneg (base factor : Q) :
  0 <= base → 0 <= (if Py.ltb 1 factor then base * (factor - 1) else 0).
Proof.
  intros Hb. destruct (Py.ltb 1 factor) eqn:E; [|done].
  apply ltb_lt in E. apply Qmult_le_0_compat; lra.
Qed.

(** The quantities behind the record of a call other than [volume] are
    not negative. *)
Lemma run_shape_nonneg (c : call) (k : nat) norm :
  round_to_of c = Some k →
  _normalise_openings (openings_of c) = Ok norm →
  ∃ g d a,
    0 <= g ∧ 0 <= d ∧ 0 <= a ∧
    ∀ unit, run c unit = Ok (to_dict (MeasureResult.make g d a unit) k).
Proof.
  destruct c; intros [= <-] Hn; cbn [openings_of] in Hn.
  - do 3 eexists. split_and!; [| | |intros unit; reflexivity];
      [apply trench_gross_nonneg|apply max_0_nonneg|done].
  - do 3 eexists. split_and!; [| | |intros unit; reflexivity];
      [apply pit_gross_nonneg|done|done].
  - do 3 eexists. split_and!; [| | |intros unit; reflexivity];
      [by nonneg|done|].
    apply extra_nonneg. by nonneg.
  - do 3 eexists. split_and!; [| | |intros unit; reflexivity];
      [|apply max_0_nonneg|done].
    apply plus_nonneg; by nonneg.
  - cbn [run]. unfold brickwork_wall, brickwork_wall_mr. rewrite Hn.
    do 3 eexists. split_and!; [| | |intros unit; reflexivity];
      [by nonneg| |done].
    apply (loop_nonneg _ openings); [done|].
    intros acc o. apply brickwork_step_nonneg, max_0_nonneg.
  - cbn [run].
    unfold stone_masonry_wall, brickwork_wall, brickwork_wall_mr. rewrite Hn.
    do 3 eexists. split_and!; [| | |intros unit; reflexivity];
      [by nonneg| |done].
    apply (loop_nonneg _ openings); [done|].
    intros acc o. apply brickwork_step_nonneg, max_0_nonneg.
  - cbn [run]. unfold wall_finish_area, wall_finish_area_mr. rewrite Hn.
    do 3 eexists. split_and!; [| | |intros unit; reflexivity];
      [by nonneg| |done].
    apply (loop_nonneg _ openings); [done|].
    intros acc o. apply wall_finish_step_nonneg, maxz_0_nonneg.
  - cbn [run]. unfold ceiling_finish_area, ceiling_finish_area_mr. rewrite Hn.
    do 3 eexists. split_and!; [| | |intros unit; reflexivity];
      [by nonneg| |done].
    apply (loop_nonneg _ openings); [done|].
    intros acc o. apply ceiling_finish_step_nonneg.
  - cbn [run]. unfold floor_area, floor_area_mr. rewrite Hn.
    do 3 eexists. split_and!; [| | |intros unit; reflexivity];
      [by nonneg| |done].
    apply (loop_nonneg _ cutouts); [done|].
    intros acc o. apply floor_step_nonneg.
  - cbn [run]. do 3 eexists.
    split_and!;
      [| | |intros unit; apply floor_area_with_wastage_value;
            unfold floor_area, floor_area_mr; rewrite Hn; reflexivity].
    + apply round_nonneg. by nonneg.
    + apply round_nonneg. apply (loop_nonneg _ cutouts); [done|].
      intros acc o. apply floor_step_nonneg.
    + apply extra_nonneg, round_nonneg, max_0_nonneg.
  - do 3 eexists. split_and!; [| | |intros unit; reflexivity];
      [|done|done].
    apply plus_nonneg; by nonneg.
  - do 3 eexists. split_and!; [| | |intros unit; reflexivity];
      [by nonneg|done|done].
  - cbn [run]. unfold steel_from_bars, steel_from_bars_mr.
    destruct (_ || _); do 3 eexists;
      (split_and!; [| | |intros unit; reflexivity]); try done.
    apply mult3_nonneg; [|apply max_0_nonneg|apply inject_Z_nonneg, maxz_0_nonneg].
    apply Qle_shift_div_l; [done|]. simpl.
    pose proof (max_0_nonneg dia_mm). nra.
  - cbn [run]. setoid_rewrite steel_slab_returns.
    unfold steel_from_bars, steel_from_bars_mr.
    destruct (_ || _); do 3 eexists;
      (split_and!; [| | |intros unit; reflexivity]); try done.
    apply mult3_nonneg; [|apply max_0_nonneg|apply inject_Z_nonneg, maxz_0_nonneg].
    apply Qle_shift_div_l; [done|]. simpl.
    pose proof (max_0_nonneg bar_dia_mm). nra.
Qed.

End NonNegativeRecords.

(** "No negative quantities": in the record of every method, gross,
    deductions, additions and net are all at least 0, and the net is never
    above gross plus additions. *)
Theorem run_nonnegative (c : call) (unit : string) (r : gmap string Q) :
  run c unit = Ok r →
  ∃ g d a n,
    has_fields r g d a n ∧
    0 <= g ∧ 0 <= d ∧ 0 <= a ∧ 0 <= n ∧ n <= g + a.
Proof.
  intros Hr.
  assert (∀ k g d a, 0 <= g → 0 <= d → 0 <= a →
            let G := Py.round g k in
            let D := Py.round d k in
            let A := Py.round a k in
            let n := Py.round (Py.max (G - D + A) 0) k in
            0 <= G ∧ 0 <= D ∧ 0 <= A ∧ 0 <= n ∧ n <= G + A) as Hnet.
  { intros k g d a Hg Hd Ha G D A n.
    assert (0 <= G) by by apply round_nonneg.
    assert (0 <= D) by by apply round_nonneg.
    assert (0 <= A) by by apply round_nonneg.
    destruct (net_of_rounded k G D A) as [Hn0 Hn];
      [apply round_has_decimals..|].
    fold n in Hn0, Hn. split_and!; try done.
    rewrite Hn. apply Q.max_lub; lra. }
  destruct (round_to_of c) as [k|] eqn:Ek.
  - pose proof (run_shape c k Ek) as Hs.
    destruct (_normalise_openings (openings_of c)) as [norm|e] eqn:En;
      [|by rewrite Hs in Hr].
    destruct (run_shape_nonneg c k norm Ek En) as (g & d & a & Hg & Hd & Ha & H).
    rewrite H in Hr. injection Hr as <-.
    do 4 eexists. split; [by apply to_dict_fields|].
    by apply Hnet.
  - destruct c; try done. injection Hr as <-.
    do 4 eexists. split; [apply volume_fields|].
    destruct (_round_for_unit_places unit) as (k & _ & Hk). rewrite !Hk.
    pose proof (Hnet k (Py.max L 0 * Py.max B 0 * Py.max D 0)
                  (Py.max deductions 0) 0) as H.
    cbv zeta in H.
    destruct H as (Hg & Hd & _ & Hn & Hle);
      [apply mult3_nonneg; apply max_0_nonneg|apply max_0_nonneg|done|].
    assert (Py.round 0 k == 0) as E0 by apply round_0.
    assert (Py.round
              (Py.max
                 (Py.round (Py.max L 0 * Py.max B 0 * Py.max D 0) k
                  - Py.round (Py.max deductions 0) k + Py.round 0 k) 0) k
            = Py.round
                (Py.max
                   (Py.round (Py.max L 0 * Py.max B 0 * Py.max D 0) k
                    - Py.round (Py.max deductions 0) k) 0) k) as En.
    { apply round_proper; [|done]. apply max_proper; [|done].
      rewrite E0. ring. }
    rewrite En in Hn, Hle. rewrite E0 in Hle.
    split_and!; done.
Qed.

Lemma run_nonnegative_witness :
  ∃ g d a n,
    has_fields (volume 2 (-1) 3 7 "cum") g d a n ∧
    0 <= g ∧ 0 <= d ∧ 0 <= a ∧ 0 <= n ∧ n <= g + a.
Proof.
  apply (run_nonnegative (CVolume 2 (-1) 3 7) "cum"). reflexivity.
Defined.

(** Every record has exactly the keys gross, deductions, additions and net;
    the record of [volume] has the key pct as well, and no other method adds
    one. *)
Theorem run_keys (c : call) (unit : string) (r : gmap string Q) :
  run c unit = Ok r →
  dom r = match c with
          | CVolume _ _ _ _ => record_keys ∪ {[ "pct"%string ]}
          | _ => record_keys
          end.
Proof.
  intros Hr.
  destruct (round_to_of c) as [k|] eqn:Ek.
  - pose proof (run_shape c k Ek) as Hs.
    destruct (_normalise_openings (openings_of c)) as [norm|e];
      [|by rewrite Hs in Hr].
    destruct Hs as (g & d & a & H). rewrite H in Hr. injection Hr as <-.
    assert (dom (MeasureResult.to_dict (MeasureResult.make g d a unit) k)
            = record_keys) as ->.
    { unfold MeasureResult.to_dict, record_keys. cbn [MeasureResult.meta
        MeasureResult.make].
      rewrite dom_union_L, !dom_insert_L, dom_empty_L. set_solver. }
    by destruct c.
  - destruct c; try done. injection Hr as <-.
    unfold volume, record_keys. rewrite !dom_insert_L, dom_empty_L.
    set_solver.
Qed.

Lemma run_keys_witness :
  dom (staircase_waist_slab_volume 3 1 (15 # 100) (1 # 2) "cum")
  = record_keys.
Proof.
  apply (run_keys (CStaircase 3 1 (15 # 100) (1 # 2)) "cum"). reflexivity.
Defined.

(** ** [volume]: clamping, deductions and the percentage *)

Section VolumeFacts.

Lemma max_0_Qmax (x : Q) : Py.max (Qmax x 0) 0 == Py.max x 0.
Proof.
  rewrite !max_Qmax. apply Q.max_l. apply Q.le_max_r.
Qed.

Lemma volume_proper (L L' B B' D D' ded ded' : Q) (unit : string) :
  Py.max L 0 == Py.max L' 0 → Py.max B 0 == Py.max B' 0 →
  Py.max D 0 == Py.max D' 0 → Py.max ded 0 == Py.max ded' 0 →
  volume L B D ded unit = volume L' B' D' ded' unit.
Proof.
  intros HL HB HD Hd. unfold volume.
  assert (_round_for_unit (Py.max L 0 * Py.max B 0 * Py.max D 0) unit
          = _round_for_unit (Py.max L' 0 * Py.max B' 0 * Py.max D' 0) unit)
    as -> by (apply _round_for_unit_proper; [by rewrite HL, HB, HD|done]).
  assert (_round_for_unit (Py.max ded 0) unit
          = _round_for_unit (Py.max ded' 0) unit)
    as -> by (by apply _round_for_unit_proper).
  done.
Qed.

End VolumeFacts.

(** [volume] treats a negative length, breadth, depth or deduction as 0:
    the record is the one of the clamped arguments.  When a dimension is 0
    or negative, gross, net and pct are all 0. *)
Theorem volume_clamps_negative (L B D deductions : Q) (unit : string) :
  volume L B D deductions unit
  = volume (Qmax L 0) (Qmax B 0) (Qmax D 0) (Qmax deductions 0) unit ∧
  (L <= 0 ∨ B <= 0 ∨ D <= 0 →
   ∃ g n p,
     volume L B D deductions unit !! "gross"%string = Some g ∧
     volume L B D deductions unit !! "net"%string = Some n ∧
     volume L B D deductions unit !! "pct"%string = Some p ∧
     g == 0 ∧ n == 0 ∧ p == 0).
Proof.
  split.
  - apply volume_proper; symmetry; apply max_0_Qmax.
  - intros Hz.
    destruct (volume_fields L B D deductions unit) as (Hg & _ & _ & Hn).
    assert (Py.max L 0 * Py.max B 0 * Py.max D 0 == 0) as E.
    { destruct Hz as [H|[H|H]]; rewrite (max_0_neg _ H); ring. }
    assert (_round_for_unit (Py.max L 0 * Py.max B 0 * Py.max D 0) unit == 0)
      as Eg by (rewrite E; apply _round_for_unit_0).
    do 3 eexists. split; [exact Hg|]. split; [exact Hn|].
    split; [unfold volume; by simplify_map_eq|].
    split; [done|]. split.
    + destruct (_round_for_unit_places unit) as (k & _ & Hk).
      rewrite !Hk in *.
      assert (Py.max
                (Py.round (Py.max L 0 * Py.max B 0 * Py.max D 0) k
                 - Py.round (Py.max deductions 0) k) 0 == 0) as ->;
        [|apply round_0].
      apply max_0_neg. rewrite Eg.
      pose proof (round_nonneg (Py.max deductions 0) k
                    (max_0_nonneg deductions)).
      lra.
    + destruct (Py.ltb 0 _) eqn:El; [|done].
      apply ltb_lt in El. lra.
Qed.

Lemma volume_clamps_negative_witness :
  ∃ g n p,
    volume 2 (-1) 3 7 "cum" !! "gross"%string = Some g ∧
    volume 2 (-1) 3 7 "cum" !! "net"%string = Some n ∧
    volume 2 (-1) 3 7 "cum" !! "pct"%string = Some p ∧
    g == 0 ∧ n == 0 ∧ p == 0.
Proof.
  apply (volume_clamps_negative 2 (-1) 3 7 "cum").
  right. left. vm_compute. discriminate.
Defined.

(** [volume] without deductions (0 or negative): the deductions and pct
    entries are 0 and the net entry is the gross entry, that is the product
    of the clamped dimensions rounded for the unit. *)
Theorem volume_without_deductions (L B D deductions : Q) (unit : string) :
  deductions <= 0 →
  ∃ g d n p,
    has_fields (volume L B D deductions unit) g d 0 n ∧
    volume L B D deductions unit !! "pct"%string = Some p ∧
    g = _round_for_unit (Qmax L 0 * Qmax B 0 * Qmax D 0) unit ∧
    d == 0 ∧ n == g ∧ p == 0.
Proof.
  intros Hd.
  destruct (_round_for_unit_places unit) as (k & _ & Hk).
  assert (_round_for_unit (Py.max deductions 0) unit == 0) as Ed.
  { rewrite (max_0_neg _ Hd). apply _round_for_unit_0. }
  do 4 eexists. split; [apply volume_fields|].
  split; [unfold volume; by simplify_map_eq|].
  split; [apply _round_for_unit_proper; [by rewrite !max_Qmax|done]|].
  split; [done|]. split.
  - rewrite Ed. rewrite !Hk.
    set (g := Py.round (Py.max L 0 * Py.max B 0 * Py.max D 0) k).
    assert (has_decimals k g) as Dg by apply round_has_decimals.
    assert (0 <= g) as Hg0.
    { apply round_nonneg, mult3_nonneg; apply max_0_nonneg. }
    rewrite round_decimal.
    + rewrite max_0_id; lra.
    + apply has_decimals_max_0, has_decimals_minus; [done|].
      apply has_decimals_0.
  - destruct (Py.ltb 0 _); [|done].
    assert (∀ g, _round_for_unit (Py.max deductions 0) unit / g * 100 == 0)
      as -> by (intros g; rewrite Ed; unfold Qdiv; ring).
    apply round_0.
Qed.

Lemma volume_without_deductions_witness :
  ∃ g d n p,
    has_fields (volume 5 2 (3 # 10) 0 "cum") g d 0 n ∧
    volume 5 2 (3 # 10) 0 "cum" !! "pct"%string = Some p ∧
    g = _round_for_unit (Qmax 5 0 * Qmax 2 0 * Qmax (3 # 10) 0) "cum" ∧
    d == 0 ∧ n == g ∧ p == 0.
Proof.
  apply (volume_without_deductions 5 2 (3 # 10) 0 "cum").
  vm_compute. discriminate.
Defined.

(** The percentage of [volume] is never negative and is not capped at 100:
    it is at most 100 while the rounded deductions do not exceed the
    rounded gross, and at least 100 once they reach a positive rounded
    gross.  When the rounded deductions reach the rounded gross, the net
    is 0. *)
Theorem volume_pct_range (L B D deductions : Q) (unit : string) :
  ∃ g d n p,
    has_fields (volume L B D deductions unit) g d 0 n ∧
    volume L B D deductions unit !! "pct"%string = Some p ∧
    0 <= p ∧
    (d <= g → p <= 100) ∧
    (0 < g → g <= d → 100 <= p) ∧
    (g <= d → n == 0).
Proof.
  destruct (_round_for_unit_places unit) as (k & _ & Hk).
  do 4 eexists. split; [apply volume_fields|].
  split; [unfold volume; by simplify_map_eq|].
  rewrite !Hk.
  set (g := Py.round (Py.max L 0 * Py.max B 0 * Py.max D 0) k).
  set (d := Py.round (Py.max deductions 0) k).
  assert (0 <= g) as Hg
      by (apply round_nonneg, mult3_nonneg; apply max_0_nonneg).
  assert (0 <= d) as Hd by (apply round_nonneg, max_0_nonneg).
  assert (Py.round 100 2 == 100) as E100 by reflexivity.
  split_and!.
  - destruct (Py.ltb 0 g) eqn:El; [|done]. apply ltb_lt in El.
    apply round_nonneg. apply Qmult_le_0_compat; [|done].
    apply Qle_shift_div_l; lra.
  - intros Hdg. destruct (Py.ltb 0 g) eqn:El; [|done]. apply ltb_lt in El.
    apply Qle_trans with (Py.round 100 2); [|by rewrite E100].
    apply round_mono.
    assert (d / g <= 1) by (apply Qle_shift_div_r; lra). lra.
  - intros Hg0 Hgd. apply ltb_lt in Hg0 as El. rewrite El.
    apply Qle_trans with (Py.round 100 2); [by rewrite E100|].
    apply round_mono.
    assert (1 <= d / g) by (apply Qle_shift_div_l; lra). lra.
  - intros Hgd. rewrite round_decimal.
    + apply max_0_neg. lra.
    + apply has_decimals_max_0, has_decimals_minus; apply round_has_decimals.
Qed.

Lemma volume_pct_range_witness :
  ∃ g d n p,
    has_fields (volume 1 1 1 5 "cum") g d 0 n ∧
    volume 1 1 1 5 "cum" !! "pct"%string = Some p ∧
    0 <= p ∧
    (d <= g → p <= 100) ∧
    (0 < g → g <= d → 100 <= p) ∧
    (g <= d → n == 0).
Proof. apply (volume_pct_range 1 1 1 5 "cum"). Defined.

(** ** Earthwork and concrete *)

Section EarthworkFacts.

Import MeasureResult.

(** The gross, deductions and net entries of [to_dict] at 3 decimals are
    those of [volume] with a volume tag, for the same gross and
    deductions. *)
Lemma to_dict_as_volume (g : Q) (L B D ded : Q) (unit : string) (key : string) :
  g == Py.max L 0 * Py.max B 0 * Py.max D 0 →
  key ∈ ["gross"; "deductions"; "net"]%string →
  to_dict (MeasureResult.make g (Py.max ded 0) 0 unit) 3 !! key
  = volume L B D ded "cum" !! key.
Proof.
  intros Hg Hkey.
  destruct (to_dict_fields (MeasureResult.make g (Py.max ded 0) 0 unit) 3
              eq_refl) as (H1 & H2 & _ & H4).
  destruct (volume_fields L B D ded "cum") as (V1 & V2 & _ & V4).
  cbn [MeasureResult.gross MeasureResult.deductions MeasureResult.additions
       MeasureResult.make] in *.
  assert (∀ v, _round_for_unit v "cum" = Py.round v 3) as Hk by done.
  rewrite !Hk in V1, V2, V4.
  assert (Py.round g 3
          = Py.round (Py.max L 0 * Py.max B 0 * Py.max D 0) 3) as Eg
      by (by apply round_proper).
  rewrite Eg in H1, H4.
  assert (Py.round
            (Py.max
               (Py.round (Py.max L 0 * Py.max B 0 * Py.max D 0) 3
                - Py.round (Py.max ded 0) 3 + Py.round 0 3) 0) 3
          = Py.round
              (Py.max
                 (Py.round (Py.max L 0 * Py.max B 0 * Py.max D 0) 3
                  - Py.round (Py.max ded 0) 3) 0) 3) as En.
  { apply round_proper; [|done]. apply max_proper; [|done].
    rewrite round_0. ring. }
  rewrite En in H4.
  set_unfold in Hkey. destruct Hkey as [-> | [-> | [-> | []]]]; congruence.
Qed.

End EarthworkFacts.

(** [trench_excavation]: a slope that is 0 or negative gives the record of
    slope 0.  A positive slope adds length x slope x depth^2 (on the clamped
    dimensions) to the gross before rounding, so the gross entry is never
    below the one of the vertical-sided trench. *)
Theorem trench_excavation_slope
    (length breadth_bottom depth slope deductions : Q) (unit : string) :
  (slope <= 0 →
   trench_excavation length breadth_bottom depth slope deductions unit
   = trench_excavation length breadth_bottom depth 0 deductions unit) ∧
  (0 < slope →
   MeasureResult.gross
     (trench_excavation_mr length breadth_bottom depth slope deductions unit)
   == MeasureResult.gross
        (trench_excavation_mr length breadth_bottom depth 0 deductions unit)
      + Qmax length 0 * slope * Qmax depth 0 * Qmax depth 0) ∧
  ∃ sloped vertical,
    trench_excavation length breadth_bottom depth slope deductions unit
      !! "gross"%string = Some sloped ∧
    trench_excavation length breadth_bottom depth 0 deductions unit
      !! "gross"%string = Some vertical ∧
    vertical <= sloped.
Proof.
  split_and!.
  - intros Hs. apply ltb_ge in Hs.
    unfold trench_excavation, trench_excavation_mr. by rewrite Hs.
  - intros Hs. apply ltb_lt in Hs.
    unfold trench_excavation_mr. rewrite Hs. change (Py.ltb 0 0) with false.
    cbn [MeasureResult.gross MeasureResult.make]. cbv zeta.
    rewrite <- !max_Qmax. field.
  - unfold trench_excavation.
    destruct (to_dict_fields
                (trench_excavation_mr length breadth_bottom depth slope
                   deductions unit) 3 eq_refl) as (-> & _).
    destruct (to_dict_fields
                (trench_excavation_mr length breadth_bottom depth 0
                   deductions unit) 3 eq_refl) as (-> & _).
    do 2 eexists. split; [done|]. split; [done|].
    apply round_mono. unfold trench_excavation_mr.
    change (Py.ltb 0 0) with false.
    cbn [MeasureResult.gross MeasureResult.make]. cbv zeta.
    destruct (Py.ltb 0 slope) eqn:Hs; [|apply Qle_refl].
    apply ltb_lt in Hs.
    pose proof (max_0_nonneg length) as HL.
    pose proof (max_0_nonneg depth) as HD.
    assert (Py.max length 0
            * ((Py.max breadth_bottom 0
                + (Py.max breadth_bottom 0 + 2 * slope * Py.max depth 0)) / 2)
            * Py.max depth 0
            == Py.max length 0 * Py.max breadth_bottom 0 * Py.max depth 0
               + slope * (Py.max length 0 * (Py.max depth 0 * Py.max depth 0)))
      as -> by field.
    assert (0 <= slope * (Py.max length 0 * (Py.max depth 0 * Py.max depth 0)));
      [|lra].
    repeat apply Qmult_le_0_compat; lra.
Qed.

Lemma trench_excavation_slope_witness :
  trench_excavation 10 1 (3 # 2) (-2) 0 "cum"
  = trench_excavation 10 1 (3 # 2) 0 0 "cum" ∧
  MeasureResult.gross (trench_excavation_mr 10 1 (3 # 2) (1 # 2) 0 "cum")
  == MeasureResult.gross (trench_excavation_mr 10 1 (3 # 2) 0 0 "cum")
     + Qmax 10 0 * (1 # 2) * Qmax (3 # 2) 0 * Qmax (3 # 2) 0.
Proof.
  split.
  - apply (trench_excavation_slope 10 1 (3 # 2) (-2) 0 "cum").
    vm_compute. discriminate.
  - apply (trench_excavation_slope 10 1 (3 # 2) (1 # 2) 0 "cum").
    reflexivity.
Defined.

(** [pit_excavation]: with a positive slope both the length and the breadth
    are averaged with their tops, gross = (L + slope x D)(B + slope x D) D on
    the clamped dimensions; a slope that is 0 or negative gives L x B x D.
    The record has no deductions and no additions, and its gross entry is
    never below the one of the vertical-sided pit. *)
Theorem pit_excavation_gross
    (length_bottom breadth_bottom depth slope : Q) (unit : string) :
  let L := Qmax length_bottom 0 in
  let B := Qmax breadth_bottom 0 in
  let D := Qmax depth 0 in
  let mr := pit_excavation_mr length_bottom breadth_bottom depth slope unit in
  (0 < slope →
   MeasureResult.gross mr == (L + slope * D) * (B + slope * D) * D) ∧
  (slope <= 0 → MeasureResult.gross mr == L * B * D) ∧
  MeasureResult.deductions mr = 0 ∧ MeasureResult.additions mr = 0 ∧
  ∃ sloped vertical,
    pit_excavation length_bottom breadth_bottom depth slope unit
      !! "gross"%string = Some sloped ∧
    pit_excavation length_bottom breadth_bottom depth 0 unit
      !! "gross"%string = Some vertical ∧
    vertical <= sloped.
Proof.
  intros L B D mr. split_and!; try done.
  - intros Hs. apply ltb_lt in Hs.
    unfold mr, pit_excavation_mr. rewrite Hs.
    cbn [MeasureResult.gross MeasureResult.make]. cbv zeta.
    unfold L, B, D. rewrite <- !max_Qmax. field.
  - intros Hs. apply ltb_ge in Hs.
    unfold mr, pit_excavation_mr. rewrite Hs.
    cbn [MeasureResult.gross MeasureResult.make]. cbv zeta.
    unfold L, B, D. by rewrite <- !max_Qmax.
  - unfold pit_excavation.
    destruct (to_dict_fields
                (pit_excavation_mr length_bottom breadth_bottom depth slope
                   unit) 3 eq_refl) as (-> & _).
    destruct (to_dict_fields
                (pit_excavation_mr length_bottom breadth_bottom depth 0
                   unit) 3 eq_refl) as (-> & _).
    do 2 eexists. split; [done|]. split; [done|].
    apply round_mono. unfold pit_excavation_mr.
    change (Py.ltb 0 0) with false.
    cbn [MeasureResult.gross MeasureResult.make]. cbv zeta.
    destruct (Py.ltb 0 slope) eqn:Hs; [|apply Qle_refl].
    apply ltb_lt in Hs.
    pose proof (max_0_nonneg length_bottom) as HL.
    pose proof (max_0_nonneg breadth_bottom) as HB.
    pose proof (max_0_nonneg depth) as HD.
    set (l := Py.max length_bottom 0) in *.
    set (b := Py.max breadth_bottom 0) in *.
    set (d := Py.max depth 0) in *.
    assert ((l + (l + 2 * slope * d)) / 2 * ((b + (b + 2 * slope * d)) / 2) * d
            == l * b * d
               + (slope * (d * (d * l)) + slope * (d * (d * b))
                  + slope * (slope * (d * (d * d)))))
      as -> by field.
    assert (0 <= slope * (d * (d * l)))
      by (repeat apply Qmult_le_0_compat; lra).
    assert (0 <= slope * (d * (d * b)))
      by (repeat apply Qmult_le_0_compat; lra).
    assert (0 <= slope * (slope * (d * (d * d))))
      by (repeat apply Qmult_le_0_compat; lra).
    lra.
Qed.

Lemma pit_excavation_gross_witness :
  MeasureResult.gross (pit_excavation_mr 2 1 1 (1 # 2) "cum")
  == (Qmax 2 0 + (1 # 2) * Qmax 1 0) * (Qmax 1 0 + (1 # 2) * Qmax 1 0)
     * Qmax 1 0 ∧
  MeasureResult.gross (pit_excavation_mr 2 1 1 (-1) "cum")
  == Qmax 2 0 * Qmax 1 0 * Qmax 1 0.
Proof.
  split.
  - apply (pit_excavation_gross 2 1 1 (1 # 2) "cum"). reflexivity.
  - apply (pit_excavation_gross 2 1 1 (-1) "cum"). vm_compute. discriminate.
Defined.

(** Vertical-sided excavation is the generic volume: with a slope that is 0
    or negative, [trench_excavation] has the gross, deductions and net
    entries of [volume] (volume tag) for the same dimensions and deductions,
    and [pit_excavation] those of [volume] without deductions. *)
Theorem vertical_excavation_is_volume
    (length breadth depth slope deductions : Q) (unit key : string) :
  slope <= 0 →
  key ∈ ["gross"; "deductions"; "net"]%string →
  trench_excavation length breadth depth slope deductions unit !! key
  = volume length breadth depth deductions "cum" !! key ∧
  pit_excavation length breadth depth slope unit !! key
  = volume length breadth depth 0 "cum" !! key.
Proof.
  intros Hs Hkey. apply ltb_ge in Hs. split.
  - unfold trench_excavation, trench_excavation_mr. rewrite Hs.
    by apply to_dict_as_volume.
  - unfold pit_excavation, pit_excavation_mr. rewrite Hs.
    by apply (to_dict_as_volume _ length breadth depth 0).
Qed.

Lemma vertical_excavation_is_volume_witness :
  trench_excavation 10 1 (3 # 2) 0 2 "cum" !! "net"%string
  = volume 10 1 (3 # 2) 2 "cum" !! "net"%string ∧
  pit_excavation 10 1 (3 # 2) 0 "cum" !! "net"%string
  = volume 10 1 (3 # 2) 0 "cum" !! "net"%string.
Proof.
  apply (vertical_excavation_is_volume 10 1 (3 # 2) 0 2 "cum" "net").
  - vm_compute. discriminate.
  - set_solver.
Defined.

Section RecordFacts.

Import MeasureResult.

Lemma round_idempotent_eq (x : Q) (k : nat) :
  Py.round (Py.round x k) k = Py.round x k.
Proof.
  unfold Py.round at 1.
  assert (Py.round x k * inject_Z (Z.pos (Py.scale k))
          == inject_Z
               (Py.round_half_even (x * inject_Z (Z.pos (Py.scale k))))) as ->.
  { unfold Py.round. rewrite Qmake_Qdiv. field. by intros Hc. }
  by rewrite round_half_even_Z.
Qed.

Lemma to_dict_proper (g g' d d' a a' : Q) (unit unit' : string) (k : nat) :
  g == g' → d == d' → a == a' →
  to_dict (MeasureResult.make g d a unit) k
  = to_dict (MeasureResult.make g' d' a' unit') k.
Proof.
  intros Hg Hd Ha. unfold to_dict.
  cbn [MeasureResult.gross MeasureResult.deductions MeasureResult.additions
       MeasureResult.meta MeasureResult.make].
  assert (Py.round g k = Py.round g' k) as -> by (by apply round_proper).
  assert (Py.round d k = Py.round d' k) as -> by (by apply round_proper).
  assert (Py.round a k = Py.round a' k) as -> by (by apply round_proper).
  done.
Qed.

(** Without deductions the net entry is gross plus additions. *)
Lemma to_dict_no_deductions (g a : Q) (unit : string) (k : nat) :
  0 <= g → 0 <= a →
  ∃ G D A n,
    has_fields (to_dict (MeasureResult.make g 0 a unit) k) G D A n ∧
    G = Py.round g k ∧ A = Py.round a k ∧ D == 0 ∧ n == G + A ∧ G <= n.
Proof.
  intros Hg Ha.
  do 4 eexists. split; [by apply to_dict_fields|].
  cbn [MeasureResult.gross MeasureResult.deductions MeasureResult.additions
       MeasureResult.make].
  pose proof (round_nonneg g k Hg) as HG.
  pose proof (round_nonneg a k Ha) as HA.
  assert (Py.round
            (Py.max (Py.round g k - Py.round 0 k + Py.round a k) 0) k
          == Py.round g k + Py.round a k) as En.
  { rewrite round_decimal.
    - rewrite round_0. rewrite max_0_id; [ring|lra].
    - apply has_decimals_max_0, has_decimals_plus;
        [apply has_decimals_minus|]; apply round_has_decimals. }
  split; [done|]. split; [done|]. split; [apply round_0|].
  split; [exact En|]. rewrite En. lra.
Qed.

End RecordFacts.

(** [backfill]: gross is the product of the clamped dimensions and nothing
    is deducted.  A compaction factor above 1 records gross x (factor - 1) as
    an addition; a factor of 1 or less records none.  The net entry is the
    gross entry plus the additions entry, so never below the gross. *)
Theorem backfill_allowance
    (length breadth height compaction_factor : Q) (unit : string) :
  let G := Qmax length 0 * Qmax breadth 0 * Qmax height 0 in
  let mr := backfill_mr length breadth height compaction_factor unit in
  MeasureResult.gross mr == G ∧
  MeasureResult.deductions mr = 0 ∧
  (1 < compaction_factor →
   MeasureResult.additions mr == G * (compaction_factor - 1)) ∧
  (compaction_factor <= 1 → MeasureResult.additions mr = 0) ∧
  ∃ g d a n,
    has_fields (backfill length breadth height compaction_factor unit)
      g d a n ∧
    d == 0 ∧ n == g + a ∧ g <= n.
Proof.
  intros G mr. split_and!.
  - unfold mr, backfill_mr, G. cbn. by rewrite !max_Qmax.
  - done.
  - intros Hf. apply ltb_lt in Hf. unfold mr, backfill_mr, G.
    rewrite Hf. cbn [MeasureResult.additions MeasureResult.make].
    by rewrite !max_Qmax.
  - intros Hf. apply ltb_ge in Hf. unfold mr, backfill_mr. by rewrite Hf.
  - unfold backfill, backfill_mr.
    set (g0 := Py.max length 0 * Py.max breadth 0 * Py.max height 0).
    assert (0 <= g0) as Hg by (apply mult3_nonneg; apply max_0_nonneg).
    destruct (to_dict_no_deductions g0
                (if Py.ltb 1 compaction_factor
                 then g0 * (compaction_factor - 1) else 0) unit 3 Hg
                (extra_nonneg g0 compaction_factor Hg))
      as (g & d & a & n & Hf & _ & _ & Hd & Hn & Hle).
    by exists g, d, a, n.
Qed.

Lemma backfill_allowance_witness :
  MeasureResult.additions (backfill_mr 4 3 (1 # 2) (105 # 100) "cum")
  == Qmax 4 0 * Qmax 3 0 * Qmax (1 # 2) 0 * ((105 # 100) - 1) ∧
  MeasureResult.additions (backfill_mr 4 3 (1 # 2) (9 # 10) "cum") = 0.
Proof.
  split.
  - apply (backfill_allowance 4 3 (1 # 2) (105 # 100) "cum"). reflexivity.
  - apply (backfill_allowance 4 3 (1 # 2) (9 # 10) "cum").
    vm_compute. discriminate.
Defined.

(** [isolated_footing_volume]: gross is the footing block plus the pedestal
    block, each the product of its clamped dimensions.  A pedestal with a
    dimension that is 0 or negative adds nothing: the gross, deductions and
    net entries are then those of [volume] (volume tag) for the footing. *)
Theorem isolated_footing_pedestal
    (L B D pedestal_L pedestal_B pedestal_H deductions : Q)
    (unit key : string) :
  MeasureResult.gross
    (isolated_footing_volume_mr L B D pedestal_L pedestal_B pedestal_H
       deductions unit)
  == Qmax L 0 * Qmax B 0 * Qmax D 0
     + Qmax pedestal_L 0 * Qmax pedestal_B 0 * Qmax pedestal_H 0 ∧
  (pedestal_L <= 0 ∨ pedestal_B <= 0 ∨ pedestal_H <= 0 →
   key ∈ ["gross"; "deductions"; "net"]%string →
   isolated_footing_volume L B D pedestal_L pedestal_B pedestal_H deductions
     unit !! key
   = volume L B D deductions "cum" !! key).
Proof.
  split.
  - cbn. by rewrite !max_Qmax.
  - intros Hp Hkey. unfold isolated_footing_volume, isolated_footing_volume_mr.
    apply to_dict_as_volume; [|done].
    assert (Py.max pedestal_L 0 * Py.max pedestal_B 0 * Py.max pedestal_H 0
            == 0) as ->; [|ring].
    destruct Hp as [H|[H|H]]; rewrite (max_0_neg _ H); ring.
Qed.

Lemma isolated_footing_pedestal_witness :
  isolated_footing_volume 2 2 (1 # 2) 0 0 0 (1 # 10) "cum" !! "net"%string
  = volume 2 2 (1 # 2) (1 # 10) "cum" !! "net"%string.
Proof.
  apply (isolated_footing_pedestal 2 2 (1 # 2) 0 0 0 (1 # 10) "cum" "net").
  - left. vm_compute. discriminate.
  - set_solver.
Defined.

(** [staircase_waist_slab_volume]: gross is flight length x width x waist
    thickness plus the landings volume, every one of the four clamped at 0
    (a negative landings volume is ignored, not subtracted); nothing is
    deducted or added, and the net entry is the gross entry. *)
Theorem staircase_waist_slab_gross
    (flight_length width waist_thickness landings_volume : Q)
    (unit : string) :
  MeasureResult.gross
    (staircase_waist_slab_volume_mr flight_length width waist_thickness
       landings_volume unit)
  == Qmax flight_length 0 * Qmax width 0 * Qmax waist_thickness 0
     + Qmax landings_volume 0 ∧
  ∃ g d a n,
    has_fields
      (staircase_waist_slab_volume flight_length width waist_thickness
         landings_volume unit) g d a n ∧
    d == 0 ∧ a == 0 ∧ n == g.
Proof.
  split.
  - cbn. by rewrite !max_Qmax.
  - unfold staircase_waist_slab_volume, staircase_waist_slab_volume_mr.
    set (g0 := _ + _).
    assert (0 <= g0) as Hg.
    { apply plus_nonneg; [apply mult3_nonneg|]; apply max_0_nonneg. }
    destruct (to_dict_no_deductions g0 0 unit 3 Hg (Qle_refl 0))
      as (g & d & a & n & Hf & _ & -> & Hd & Hn & _).
    exists g, d, (Py.round 0 3), n. split_and!; try done.
    rewrite Hn. rewrite round_0. ring.
Qed.

(** ** Reinforcement helpers *)

Section SteelFacts.

Import MeasureResult.

Lemma int_lt_1 (x : Q) : x < 1 → (Py.int x <= 0)%Z.
Proof.
  intros H. unfold Py.int. destruct x as [p q]. cbn [Qnum Qden].
  unfold Qlt in H. cbn in H. rewrite Z.mul_1_r in H.
  destruct (Z_lt_le_dec p 0) as [Hn|Hp].
  - rewrite <- (Z.opp_involutive p), Z.quot_opp_l by lia.
    assert (0 <= (- p) ÷ Z.pos q)%Z by (apply Z.quot_pos; lia). lia.
  - rewrite Z.quot_small; lia.
Qed.

Lemma int_ge_1 (x : Q) : 1 <= x → (1 <= Py.int x)%Z.
Proof.
  intros H. unfold Py.int. destruct x as [p q]. cbn [Qnum Qden].
  unfold Qle in H. cbn in H. rewrite Z.mul_1_r in H.
  rewrite Z.quot_div_nonneg by lia.
  apply Z.div_le_lower_bound; lia.
Qed.

Lemma leb_max_0 (x : Q) : Py.leb (Py.max x 0) 0 = true ↔ x <= 0.
Proof.
  rewrite leb_le, max_Qmax. split.
  - intros H. pose proof (Q.le_max_l x 0). lra.
  - intros H. rewrite Q.max_r; lra.
Qed.

Lemma steel_from_bars_mr_count (dia_mm length_m : Q) (n : Z) (unit : string) :
  (1 <= n)%Z →
  steel_from_bars_mr dia_mm length_m (inject_Z n) unit
  = if Py.leb (Py.max dia_mm 0) 0 || Py.leb (Py.max length_m 0) 0
    then MeasureResult.make 0 0 0 unit
    else MeasureResult.make
           (Py.max dia_mm 0 ^ 2 / 162 * Py.max length_m 0 * inject_Z n)
           0 0 unit.
Proof.
  intros Hn. unfold steel_from_bars_mr. rewrite int_inject_Z, maxz_max.
  rewrite Z.max_l by lia.
  assert ((n <=? 0)%Z = false) as -> by (apply Z.leb_gt; lia).
  by rewrite orb_false_r.
Qed.

Lemma steel_from_bars_mono (dia_mm length_m : Q) (n n' : Z) (unit : string) :
  (1 <= n)%Z → (n <= n')%Z →
  ∃ g g',
    steel_from_bars dia_mm length_m (inject_Z n) unit !! "gross"%string
    = Some g ∧
    steel_from_bars dia_mm length_m (inject_Z n') unit !! "gross"%string
    = Some g' ∧
    g <= g'.
Proof.
  intros Hn Hnn'. unfold steel_from_bars.
  rewrite !steel_from_bars_mr_count by lia.
  destruct (_ || _) eqn:Ec.
  - destruct (to_dict_fields (MeasureResult.make 0 0 0 unit) 2 eq_refl)
      as (Hg & _).
    do 2 eexists. split; [exact Hg|]. split; [exact Hg|]. apply Qle_refl.
  - set (u := Py.max dia_mm 0 ^ 2 / 162 * Py.max length_m 0).
    destruct (to_dict_fields (MeasureResult.make (u * inject_Z n) 0 0 unit) 2
                eq_refl) as (Hg & _).
    destruct (to_dict_fields (MeasureResult.make (u * inject_Z n') 0 0 unit) 2
                eq_refl) as (Hg' & _).
    do 2 eexists. split; [exact Hg|]. split; [exact Hg'|].
    apply round_mono. cbn [MeasureResult.gross MeasureResult.make].
    assert (0 <= u) as Hu.
    { unfold u. apply Qmult_le_0_compat; [|apply max_0_nonneg].
      apply Qle_shift_div_l; [done|]. simpl.
      pose proof (max_0_nonneg dia_mm). nra. }
    assert (inject_Z n <= inject_Z n') as Hq by (by rewrite <- Zle_Qle).
    rewrite !(Qmult_comm u). by apply Qmult_le_compat_r.
Qed.

End SteelFacts.

(** [steel_from_kg_per_cum]: the weight is volume x rate with both clamped
    at 0, so a negative volume or rate gives 0; nothing is deducted or added
    and the net entry is the gross entry, the weight rounded to 2
    decimals. *)
Theorem steel_from_kg_per_cum_weight
    (concrete_volume_cum kg_per_cum : Q) (unit : string) :
  ∃ g d a n,
    has_fields (steel_from_kg_per_cum concrete_volume_cum kg_per_cum unit)
      g d a n ∧
    g = Py.round (Qmax concrete_volume_cum 0 * Qmax kg_per_cum 0) 2 ∧
    d == 0 ∧ a == 0 ∧ n == g ∧
    (concrete_volume_cum <= 0 ∨ kg_per_cum <= 0 → g == 0).
Proof.
  unfold steel_from_kg_per_cum, steel_from_kg_per_cum_mr.
  set (wt := Py.max concrete_volume_cum 0 * Py.max kg_per_cum 0).
  assert (0 <= wt) as Hwt
      by (apply Qmult_le_0_compat; apply max_0_nonneg).
  destruct (to_dict_no_deductions wt 0 unit 2 Hwt (Qle_refl 0))
    as (g & d & a & n & Hf & -> & -> & Hd & Hn & _).
  do 4 eexists. split; [exact Hf|].
  split; [apply round_proper; [unfold wt; by rewrite !max_Qmax|done]|].
  split; [done|]. split; [apply round_0|].
  split; [rewrite Hn, round_0; ring|].
  intros Hz.
  assert (wt == 0) as ->; [|apply round_0].
  unfold wt. destruct Hz as [H|H]; rewrite (max_0_neg _ H); ring.
Qed.

(** [steel_from_bars]: the count is truncated to an integer, so a
    fractional part is ignored.  A diameter or length that is 0 or negative,
    or a count below 1, gives the all-zero record.  Otherwise the weight
    before rounding is dia^2 / 162 x length x int(count). *)
Theorem steel_from_bars_count (dia_mm length_m count : Q) (unit : string) :
  steel_from_bars dia_mm length_m count unit
  = steel_from_bars dia_mm length_m (inject_Z (Py.int count)) unit ∧
  (dia_mm <= 0 ∨ length_m <= 0 ∨ count < 1 →
   steel_from_bars dia_mm length_m count unit
   = MeasureResult.to_dict (MeasureResult.make 0 0 0 unit) 2) ∧
  (0 < dia_mm → 0 < length_m → 1 <= count →
   MeasureResult.gross (steel_from_bars_mr dia_mm length_m count unit)
   == dia_mm ^ 2 / 162 * length_m * inject_Z (Py.int count) ∧
   0 < MeasureResult.gross (steel_from_bars_mr dia_mm length_m count unit)).
Proof.
  split_and!.
  - unfold steel_from_bars, steel_from_bars_mr. by rewrite int_inject_Z.
  - intros Hz. unfold steel_from_bars, steel_from_bars_mr.
    assert (Py.leb (Py.max dia_mm 0) 0 || Py.leb (Py.max length_m 0) 0
            || (Py.maxz (Py.int count) 0 <=? 0)%Z = true) as ->; [|done].
    destruct Hz as [H|[H|H]].
    + apply leb_max_0 in H. by rewrite H.
    + apply leb_max_0 in H. rewrite H. by rewrite orb_true_r.
    + apply int_lt_1 in H. rewrite maxz_max, Z.max_r by lia.
      by rewrite !orb_true_r.
  - intros Hd Hl Hc.
    assert (Py.max dia_mm 0 = dia_mm) as Ed by (apply max_l; lra).
    assert (Py.max length_m 0 = length_m) as El by (apply max_l; lra).
    pose proof (int_ge_1 count Hc) as Hn.
    assert (steel_from_bars_mr dia_mm length_m count unit
            = MeasureResult.make
                (dia_mm ^ 2 / 162 * length_m * inject_Z (Py.int count))
                0 0 unit) as ->.
    { unfold steel_from_bars_mr. rewrite Ed, El, maxz_max, Z.max_l by lia.
      apply leb_gt in Hd. apply leb_gt in Hl. rewrite Hd, Hl.
      assert ((Py.int count <=? 0)%Z = false) as -> by (apply Z.leb_gt; lia).
      done. }
    cbn [MeasureResult.gross MeasureResult.make]. split; [done|].
    assert (1 <= inject_Z (Py.int count)) as Hq
        by (change 1 with (inject_Z 1); by rewrite <- Zle_Qle).
    assert (0 < dia_mm ^ 2) by (simpl; nra).
    assert (dia_mm ^ 2 / 162 * length_m * inject_Z (Py.int count)
            == (dia_mm ^ 2 * length_m * inject_Z (Py.int count)) * (1 # 162))
      as -> by field.
    assert (0 < dia_mm ^ 2 * length_m) by nra.
    nra.
Qed.

Lemma steel_from_bars_count_witness :
  steel_from_bars 12 6 (1 # 2) "kg"
  = MeasureResult.to_dict (MeasureResult.make 0 0 0 "kg") 2 ∧
  MeasureResult.gross (steel_from_bars_mr 12 6 (21 # 2) "kg")
  == 12 ^ 2 / 162 * 6 * inject_Z (Py.int (21 # 2)).
Proof.
  split.
  - apply (steel_from_bars_count 12 6 (1 # 2) "kg"). right. right. reflexivity.
  - apply (steel_from_bars_count 12 6 (21 # 2) "kg");
      [reflexivity|reflexivity|vm_compute; discriminate].
Defined.

(** [steel_slab_single_layer]: a spacing of 1 mm or less (zero and negative
    included) is taken as 1 mm, so the division never fails; a width that is
    0 or negative is taken as 0; and a wider slab never gets a smaller
    weight. *)
Theorem steel_slab_spacing_and_width
    (slab_length slab_width slab_width' bar_dia_mm spacing_mm : Q)
    (unit : string) :
  (spacing_mm <= 1 →
   steel_slab_single_layer slab_length slab_width bar_dia_mm spacing_mm unit
   = steel_slab_single_layer slab_length slab_width bar_dia_mm 1 unit) ∧
  (slab_width <= 0 →
   steel_slab_single_layer slab_length slab_width bar_dia_mm spacing_mm unit
   = steel_slab_single_layer slab_length 0 bar_dia_mm spacing_mm unit) ∧
  (slab_width <= slab_width' →
   ∃ r r' g g',
     steel_slab_single_layer slab_length slab_width bar_dia_mm spacing_mm unit
     = Ok r ∧
     steel_slab_single_layer slab_length slab_width' bar_dia_mm spacing_mm
       unit = Ok r' ∧
     r !! "gross"%string = Some g ∧ r' !! "gross"%string = Some g' ∧
     g <= g').
Proof.
  split_and!.
  - intros Hs. rewrite !steel_slab_returns. do 4 f_equal.
    apply Qfloor_comp.
    assert (Py.max spacing_mm 1 == Py.max 1 1) as ->; [|done].
    rewrite !max_Qmax. rewrite Q.max_r by done. reflexivity.
  - intros Hw. rewrite !steel_slab_returns. do 4 f_equal.
    apply Qfloor_comp.
    assert (Py.max slab_width 0 == Py.max 0 0) as ->; [|done].
    by rewrite (max_0_neg _ Hw).
  - intros Hw. rewrite !steel_slab_returns.
    set (n := (Qfloor (Py.max slab_width 0 * 1000 / Py.max spacing_mm 1)
               + 1)%Z).
    set (n' := (Qfloor (Py.max slab_width' 0 * 1000 / Py.max spacing_mm 1)
                + 1)%Z).
    assert (1 <= n)%Z as Hn by apply n_bars_positive.
    assert (n <= n')%Z as Hnn'.
    { unfold n, n'. apply Z.add_le_mono_r, Qfloor_resp_le.
      assert (1 <= Py.max spacing_mm 1) as Hs
          by (rewrite max_Qmax; apply Q.le_max_r).
      apply Qmult_le_compat_r; [|apply Qinv_le_0_compat; lra].
      apply Qmult_le_compat_r; [|done].
      rewrite !max_Qmax. apply Q.max_le_compat_r. done. }
    destruct (steel_from_bars_mono bar_dia_mm (Py.max slab_length 0) n n' unit
                Hn Hnn') as (g & g' & Hg & Hg' & Hle).
    by eexists _, _, g, g'.
Qed.

Lemma steel_slab_spacing_and_width_witness :
  steel_slab_single_layer 4 3 10 0 "kg"
  = steel_slab_single_layer 4 3 10 1 "kg" ∧
  steel_slab_single_layer 4 (-3) 10 150 "kg"
  = steel_slab_single_layer 4 0 10 150 "kg" ∧
  ∃ r r' g g',
    steel_slab_single_layer 4 3 10 150 "kg" = Ok r ∧
    steel_slab_single_layer 4 5 10 150 "kg" = Ok r' ∧
    r !! "gross"%string = Some g ∧ r' !! "gross"%string = Some g' ∧
    g <= g'.
Proof.
  split_and!.
  - apply (steel_slab_spacing_and_width 4 3 3 10 0 "kg").
    vm_compute. discriminate.
  - apply (steel_slab_spacing_and_width 4 (-3) 0 10 150 "kg").
    vm_compute. discriminate.
  - apply (steel_slab_spacing_and_width 4 3 5 10 150 "kg").
    vm_compute. discriminate.
Defined.

(** ** Finishes and flooring: how the deduction rules relate *)

Section FinishFacts.

Import MeasureResult.

Lemma leb_negb_ltb (x y : Q) : Py.leb x y = negb (Py.ltb y x).
Proof. unfold Py.leb, Py.ltb. by rewrite negb_involutive. Qed.

(** With one side, the medium tier and the large tier deduct the same, which
    is what the ceiling rule deducts. *)
Lemma ceiling_loop_one_side (small medium : Q) (norm : list opening) :
  ∀ acc acc', acc == acc' →
    foldl (ceiling_finish_step small) acc norm
    == foldl (wall_finish_step 1 small medium) acc' norm.
Proof.
  induction norm as [|o norm IH]; intros acc acc' E; [done|].
  cbn [foldl]. apply IH.
  unfold ceiling_finish_step, wall_finish_step.
  rewrite (leb_negb_ltb _ small).
  destruct (Py.ltb small (o_w o * o_h o)); cbn [negb]; [|done].
  destruct (Py.leb _ medium); rewrite E; [done|].
  change (inject_Z 1) with 1. ring.
Qed.

(** With a limit of 0 or less no normalised opening is exempt. *)
Lemma floor_loop_no_exemption (lim : Q) (norm : list opening) :
  lim <= 0 → Forall positive_opening norm →
  ∀ acc, foldl floor_step acc norm = foldl (ceiling_finish_step lim) acc norm.
Proof.
  intros Hlim Hpos. induction Hpos as [|o norm Ho _ IH]; intros acc; [done|].
  cbn [foldl]. rewrite IH. f_equal.
  unfold floor_step, ceiling_finish_step.
  pose proof (area_one_pos o Ho) as Ha. unfold area_one in Ha.
  assert (Py.ltb lim (o_w o * o_h o) = true) as -> by (apply ltb_lt; lra).
  done.
Qed.

Lemma floor_loop_sum (norm : list opening) :
  ∀ acc,
    foldl floor_step acc norm
    == acc + Qsum (map (λ c, o_w c * o_h c * o_n c) norm).
Proof.
  induction norm as [|o norm IH]; intros acc.
  - simpl. ring.
  - cbn [foldl map]. rewrite IH. unfold floor_step. simpl. ring.
Qed.

(** A larger exemption limit never deducts more from a masonry wall. *)
Lemma brickwork_loop_antitone (thickness lim lim' : Q) (norm : list opening) :
  0 <= thickness → lim <= lim' → Forall positive_opening norm →
  ∀ acc acc', acc' <= acc →
    foldl (brickwork_step thickness lim') acc' norm
    <= foldl (brickwork_step thickness lim) acc norm.
Proof.
  intros Ht Hl Hpos.
  induction Hpos as [|o norm Ho _ IH]; intros acc acc' Hacc; [done|].
  cbn [foldl]. apply IH.
  pose proof (area_one_pos o Ho) as Ha. destruct Ho as (_ & _ & Hn).
  unfold brickwork_step. fold (area_one o).
  assert (0 <= area_one o * thickness * o_n o) as Hc
      by (apply mult3_nonneg; lra).
  destruct (Py.leb (area_one o) lim') eqn:E';
    destruct (Py.leb (area_one o) lim) eqn:E; try lra.
  apply leb_le in E. apply leb_gt in E'. lra.
Qed.

End FinishFacts.

(** [ceiling_finish_area] is [wall_finish_area] for a single side: the same
    outcome (record or exception) on the same openings and small limit,
    whatever the medium limit, the breadth taken as the height. *)
Theorem ceiling_is_one_sided_wall
    (length breadth : Q) (openings : option (list entry))
    (small_opening_limit medium_opening_limit : Q) (unit : string) :
  ceiling_finish_area length breadth openings small_opening_limit unit
  = wall_finish_area length breadth 1 openings small_opening_limit
      medium_opening_limit unit.
Proof.
  unfold ceiling_finish_area, ceiling_finish_area_mr, wall_finish_area,
    wall_finish_area_mr.
  destruct (_normalise_openings openings) as [norm|e]; [|done].
  cbn [mbind pyres_bind mret pyres_ret]. f_equal.
  apply to_dict_proper; [|by apply ceiling_loop_one_side|done].
  change (inject_Z (Py.maxz (Py.int 1) 0)) with 1. ring.
Qed.

(** [floor_area] exempts no cut-out: its deductions are the sum of
    width x height x count over all normalised cut-outs, and its outcome is
    the one of [ceiling_finish_area] with a small limit of 0 (or below). *)
Theorem floor_area_deducts_every_cutout
    (length breadth : Q) (cutouts : option (list entry))
    (small_opening_limit : Q) (unit : string) :
  small_opening_limit <= 0 →
  floor_area length breadth cutouts unit
  = ceiling_finish_area length breadth cutouts small_opening_limit unit ∧
  (∀ norm, _normalise_openings cutouts = Ok norm →
     ∃ mr,
       floor_area_mr length breadth cutouts unit = Ok mr ∧
       MeasureResult.deductions mr
       == Qsum (map (λ c, o_w c * o_h c * o_n c) norm)).
Proof.
  intros Hlim. split.
  - unfold floor_area, floor_area_mr, ceiling_finish_area,
      ceiling_finish_area_mr.
    destruct (_normalise_openings cutouts) as [norm|e] eqn:En; [|done].
    cbn [mbind pyres_bind mret pyres_ret].
    rewrite (floor_loop_no_exemption small_opening_limit norm Hlim); [done|].
    by apply (normalised_positive cutouts).
  - intros norm Hn. unfold floor_area_mr. rewrite Hn.
    eexists. split; [done|].
    cbn [MeasureResult.deductions MeasureResult.make].
    rewrite floor_loop_sum. ring.
Qed.

Lemma floor_area_deducts_every_cutout_witness :
  floor_area 4 3
    (Some [EDict {[ "w" := VFloat (1 # 10); "h" := VFloat (1 # 10) ]}]) "sqm"
  = ceiling_finish_area 4 3
      (Some [EDict {[ "w" := VFloat (1 # 10); "h" := VFloat (1 # 10) ]}])
      0 "sqm".
Proof.
  apply (floor_area_deducts_every_cutout 4 3 _ 0 "sqm").
  vm_compute. discriminate.
Defined.

(** Raising the small-opening limit of [brickwork_wall] never raises the
    deductions entry, and so never lowers the net entry. *)
Theorem brickwork_wall_limit_antitone
    (length thickness height : Q) (openings : option (list entry))
    (limit limit' : Q) (unit : string) (r r' : gmap string Q) :
  limit <= limit' →
  brickwork_wall length thickness height openings limit unit = Ok r →
  brickwork_wall length thickness height openings limit' unit = Ok r' →
  ∃ g a d d' n n',
    has_fields r g d a n ∧ has_fields r' g d' a n' ∧
    d' <= d ∧ n <= n'.
Proof.
  intros Hl. unfold brickwork_wall, brickwork_wall_mr.
  destruct (_normalise_openings openings) as [norm|e] eqn:En; [|done].
  cbn [mbind pyres_bind mret pyres_ret]. intros [= <-] [= <-].
  set (g := Py.max length 0 * Py.max thickness 0 * Py.max height 0).
  set (ded := foldl (brickwork_step (Py.max thickness 0) limit) 0 norm).
  set (ded' := foldl (brickwork_step (Py.max thickness 0) limit') 0 norm).
  assert (ded' <= ded) as Hd.
  { apply brickwork_loop_antitone; [apply max_0_nonneg|done| |done].
    by apply (normalised_positive openings). }
  pose proof (round_mono _ _ 3 Hd) as HD.
  do 6 eexists.
  split; [exact (to_dict_fields (MeasureResult.make g ded 0 unit) 3 eq_refl)|].
  split; [exact (to_dict_fields (MeasureResult.make g ded' 0 unit) 3 eq_refl)|].
  cbn [MeasureResult.gross MeasureResult.deductions MeasureResult.additions
       MeasureResult.make].
  split; [done|].
  apply round_mono. rewrite !max_Qmax. apply Q.max_le_compat_r. lra.
Qed.

Lemma brickwork_wall_limit_antitone_witness :
  ∃ g a d d' n n',
    has_fields
      (MeasureResult.to_dict
         (MeasureResult.make (345 # 100) (483 # 1000) 0 "cum") 3) g d a n ∧
    has_fields
      (MeasureResult.to_dict (MeasureResult.make (345 # 100) 0 0 "cum") 3)
      g d' a n' ∧
    d' <= d ∧ n <= n'.
Proof.
  apply (brickwork_wall_limit_antitone 5 (23 # 100) 3
           (Some [EDict {[ "w" := VFloat 1; "h" := VFloat (21 # 10) ]}])
           (1 # 10) 3 "cum").
  - vm_compute. discriminate.
  - vm_compute. reflexivity.
  - vm_compute. reflexivity.
Defined.

(** [wall_finish_area] reads [sides] through [max(int(sides), 0)]: a
    fractional number of sides is truncated and a negative one is 0.  With
    fewer than one side the gross and the net entries are 0, whatever the
    openings deduct. *)
Theorem wall_finish_area_sides
    (length height sides : Q) (openings : option (list entry))
    (small_opening_limit medium_opening_limit : Q) (unit : string) :
  wall_finish_area length height sides openings small_opening_limit
    medium_opening_limit unit
  = wall_finish_area length height
      (inject_Z (Z.max (Py.int sides) 0)) openings small_opening_limit
      medium_opening_limit unit ∧
  (sides < 1 →
   ∀ r,
     wall_finish_area length height sides openings small_opening_limit
       medium_opening_limit unit = Ok r →
     ∃ g d a n, has_fields r g d a n ∧ g == 0 ∧ n == 0).
Proof.
  split.
  - unfold wall_finish_area, wall_finish_area_mr.
    rewrite int_inject_Z, !maxz_max.
    by rewrite (Z.max_l (Z.max (Py.int sides) 0) 0) by lia.
  - intros Hs r. unfold wall_finish_area, wall_finish_area_mr.
    destruct (_normalise_openings openings) as [norm|e] eqn:En; [|done].
    cbn [mbind pyres_bind mret pyres_ret]. intros [= <-].
    apply int_lt_1 in Hs.
    rewrite maxz_max, Z.max_r by lia.
    set (ded := foldl _ 0 norm).
    assert (0 <= ded) as Hd.
    { apply (loop_nonneg _ openings); [done|].
      intros acc o. by apply wall_finish_step_nonneg. }
    do 4 eexists. split; [by apply to_dict_fields|].
    cbn [MeasureResult.gross MeasureResult.deductions MeasureResult.additions
         MeasureResult.make].
    assert (Py.round (Py.max length 0 * Py.max height 0 * inject_Z 0) 2 == 0)
      as Eg.
    { assert (Py.max length 0 * Py.max height 0 * inject_Z 0 == 0) as ->
          by (change (inject_Z 0) with 0; ring).
      apply round_0. }
    split; [done|].
    assert (Py.max
              (Py.round (Py.max length 0 * Py.max height 0 * inject_Z 0) 2
               - Py.round ded 2 + Py.round 0 2) 0 == 0) as ->;
      [|apply round_0].
    apply max_0_neg. rewrite Eg, round_0.
    pose proof (round_nonneg ded 2 Hd). lra.
Qed.

Lemma wall_finish_area_sides_witness :
  ∃ g d a n,
    has_fields
      (MeasureResult.to_dict (MeasureResult.make 0 2 0 "sqm") 2) g d a n ∧
    g == 0 ∧ n == 0.
Proof.
  apply (wall_finish_area_sides 5 3 (1 # 2)
           (Some [EDict {[ "w" := VFloat 1; "h" := VFloat 2 ]}]) (1 # 2) 3
           "sqm").
  - reflexivity.
  - vm_compute. reflexivity.
Defined.

(** ** Flooring with wastage: what it keeps of [floor_area] *)

(** Whatever the wastage factor, the record of [floor_area_with_wastage]
    has the gross and deductions entries of the record of [floor_area], and
    its net entry is never below the net of [floor_area]. *)
Theorem floor_area_with_wastage_keeps_base
    (length breadth wastage_factor : Q) (cutouts : option (list entry))
    (unit : string) (base : gmap string Q) :
  floor_area length breadth cutouts unit = Ok base →
  ∃ r net_base n,
    floor_area_with_wastage length breadth wastage_factor cutouts unit
    = Ok r ∧
    r !! "gross"%string = base !! "gross"%string ∧
    r !! "deductions"%string = base !! "deductions"%string ∧
    base !! "net"%string = Some net_base ∧ r !! "net"%string = Some n ∧
    net_base <= n.
Proof.
  unfold floor_area, floor_area_mr.
  destruct (_normalise_openings cutouts) as [norm|e] eqn:En; [|done].
  cbn [mbind pyres_bind mret pyres_ret]. intros [= <-].
  set (g0 := Py.max length 0 * Py.max breadth 0).
  set (d0 := foldl floor_step 0 norm).
  assert (floor_area length breadth cutouts unit
          = Ok (MeasureResult.to_dict (MeasureResult.make g0 d0 0 unit) 2))
    as Hbase by (unfold floor_area, floor_area_mr; by rewrite En).
  pose proof (floor_area_with_wastage_value length breadth wastage_factor
                cutouts unit g0 d0 Hbase) as Hr. cbv zeta in Hr.
  destruct (to_dict_fields (MeasureResult.make g0 d0 0 unit) 2 eq_refl)
    as (Bg & Bd & _ & Bn).
  cbn [MeasureResult.gross MeasureResult.deductions MeasureResult.additions
       MeasureResult.make] in Bg, Bd, Bn.
  set (nb := Py.round
               (Py.max (Py.round g0 2 - Py.round d0 2 + Py.round 0 2) 0) 2)
    in *.
  set (extra := if Py.ltb 1 wastage_factor then nb * (wastage_factor - 1)
                else 0) in *.
  destruct (to_dict_fields
              (MeasureResult.make (Py.round g0 2) (Py.round d0 2) extra unit)
              2 eq_refl) as (Rg & Rd & _ & Rn).
  cbn [MeasureResult.gross MeasureResult.deductions MeasureResult.additions
       MeasureResult.make] in Rg, Rd, Rn.
  rewrite !round_idempotent_eq in Rg, Rd, Rn.
  do 3 eexists. split; [exact Hr|].
  split; [by rewrite Rg, Bg|]. split; [by rewrite Rd, Bd|].
  split; [exact Bn|]. split; [exact Rn|].
  unfold nb. apply round_mono.
  assert (0 <= Py.round extra 2) as He.
  { apply round_nonneg, extra_nonneg, round_nonneg, max_0_nonneg. }
  rewrite !max_Qmax. apply Q.max_le_compat_r.
  rewrite round_0, ?round_idempotent_eq. lra.
Qed.

Lemma floor_area_with_wastage_keeps_base_witness :
  ∃ r net_base n,
    floor_area_with_wastage 4 3 (103 # 100) None "sqm" = Ok r ∧
    r !! "gross"%string
    = MeasureResult.to_dict (MeasureResult.make 12 0 0 "sqm") 2
        !! "gross"%string ∧
    r !! "deductions"%string
    = MeasureResult.to_dict (MeasureResult.make 12 0 0 "sqm") 2
        !! "deductions"%string ∧
    MeasureResult.to_dict (MeasureResult.make 12 0 0 "sqm") 2 !! "net"%string
    = Some net_base ∧
    r !! "net"%string = Some n ∧
    net_base <= n.
Proof.
  apply (floor_area_with_wastage_keeps_base 4 3 (103 # 100) None "sqm").
  vm_compute. reflexivity.
Defined.

(** ** Formwork areas *)

Section FormworkFacts.

Lemma _round_for_unit_family (v : Q) (unit : string) :
  _round_for_unit v unit = Py.round v (decimals (family_of unit)).
Proof.
  unfold family_of, _round_for_unit, canonical_tag, linear_tags, area_tags,
    volume_tags, weight_tags.
  repeat case_bool_decide; repeat case_decide; done.
Qed.

End FormworkFacts.

(** [formwork_column_area] is never negative, does not change when length
    and breadth are swapped, treats negative sizes as 0, and is 0 for a
    height that is 0 or negative. *)
Theorem formwork_column_area_facts (L B H : Q) (unit : string) :
  0 <= formwork_column_area L B H unit ∧
  formwork_column_area L B H unit = formwork_column_area B L H unit ∧
  formwork_column_area L B H unit
  = formwork_column_area (Qmax L 0) (Qmax B 0) (Qmax H 0) unit ∧
  (H <= 0 → formwork_column_area L B H unit == 0).
Proof.
  unfold formwork_column_area. split_and!.
  - apply _round_for_unit_nonneg.
    apply Qmult_le_0_compat; [|apply max_0_nonneg].
    apply Qmult_le_0_compat; [done|].
    apply plus_nonneg; apply max_0_nonneg.
  - apply _round_for_unit_proper; [ring|done].
  - apply _round_for_unit_proper; [|done]. by rewrite !max_0_Qmax.
  - intros HH. rewrite (max_0_neg _ HH).
    assert (2 * (Py.max L 0 + Py.max B 0) * 0 == 0) as -> by ring.
    apply _round_for_unit_0.
Qed.

Lemma formwork_column_area_facts_witness :
  formwork_column_area (3 # 10) (4 # 10) (-3) "sqm" == 0.
Proof.
  apply (formwork_column_area_facts (3 # 10) (4 # 10) (-3) "sqm").
  vm_compute. discriminate.
Defined.

(** [formwork_beam_area] is never negative and is 0 for a length that is 0
    or negative; with a depth that is 0 or negative only the soffit is left,
    the area [formwork_slab_area] gives for breadth x length. *)
Theorem formwork_beam_area_facts (breadth depth length : Q) (unit : string) :
  0 <= formwork_beam_area breadth depth length unit ∧
  (length <= 0 → formwork_beam_area breadth depth length unit == 0) ∧
  (depth <= 0 →
   formwork_beam_area breadth depth length unit
   = formwork_slab_area breadth length unit).
Proof.
  unfold formwork_beam_area, formwork_slab_area. split_and!.
  - apply _round_for_unit_nonneg.
    apply Qmult_le_0_compat; [|apply max_0_nonneg].
    apply plus_nonneg; [|apply max_0_nonneg].
    apply Qmult_le_0_compat; [done|apply max_0_nonneg].
  - intros Hl. rewrite (max_0_neg _ Hl).
    assert ((2 * Py.max depth 0 + Py.max breadth 0) * 0 == 0) as -> by ring.
    apply _round_for_unit_0.
  - intros Hd. apply _round_for_unit_proper; [|done].
    rewrite (max_0_neg _ Hd). ring.
Qed.

Lemma formwork_beam_area_facts_witness :
  formwork_beam_area (3 # 10) (45 # 100) (-4) "sqm" == 0 ∧
  formwork_beam_area (3 # 10) 0 4 "sqm" = formwork_slab_area (3 # 10) 4 "sqm".
Proof.
  split.
  - apply (formwork_beam_area_facts (3 # 10) (45 # 100) (-4) "sqm").
    vm_compute. discriminate.
  - apply (formwork_beam_area_facts (3 # 10) 0 4 "sqm").
    vm_compute. discriminate.
Defined.

(** [formwork_slab_area] is never negative and symmetric in length and
    breadth; for a tag of 2 decimals (linear, area, weight) it is the gross
    entry of [floor_area] for the same length and breadth. *)
Theorem formwork_slab_area_is_floor_gross
    (length breadth : Q) (unit unit' : string)
    (cutouts : option (list entry)) (r : gmap string Q) :
  decimals (family_of unit) = 2%nat →
  floor_area length breadth cutouts unit' = Ok r →
  r !! "gross"%string = Some (formwork_slab_area length breadth unit) ∧
  0 <= formwork_slab_area length breadth unit ∧
  formwork_slab_area length breadth unit
  = formwork_slab_area breadth length unit.
Proof.
  intros Hk. unfold floor_area, floor_area_mr.
  destruct (_normalise_openings cutouts) as [norm|e]; [|done].
  cbn [mbind pyres_bind mret pyres_ret]. intros [= <-].
  unfold formwork_slab_area. rewrite !_round_for_unit_family, Hk.
  split_and!.
  - by destruct (to_dict_fields
                   (MeasureResult.make (Py.max length 0 * Py.max breadth 0)
                      (foldl floor_step 0 norm) 0 unit') 2 eq_refl)
      as (-> & _).
  - apply round_nonneg, Qmult_le_0_compat; apply max_0_nonneg.
  - apply round_proper; [ring|done].
Qed.

Lemma formwork_slab_area_is_floor_gross_witness :
  MeasureResult.to_dict (MeasureResult.make 12 0 0 "sqm") 2 !! "gross"%string
  = Some (formwork_slab_area 4 3 " SQ.M ").
Proof.
  apply (formwork_slab_area_is_floor_gross 4 3 " SQ.M " "sqm" None).
  - reflexivity.
  - vm_compute. reflexivity.
Defined.

(** ** Unit tags: spelling and accuracy *)

Section TagFacts.










End TagFacts.



(** Whatever the tag, [_round_for_unit] returns a number with at most 3
    decimals that is within 0.005 of the value; it keeps the order of
    values, keeps non-negative values non-negative, and rounding its result
    again with the same tag changes nothing. *)
Theorem round_for_unit_accuracy (v v' : Q) (unit : string) :
  Qabs (_round_for_unit v unit - v) <= 5 # 1000 ∧
  has_decimals 3 (_round_for_unit v unit) ∧
  (v <= v' → _round_for_unit v unit <= _round_for_unit v' unit) ∧
  (0 <= v → 0 <= _round_for_unit v unit) ∧
  _round_for_unit (_round_for_unit v unit) unit = _round_for_unit v unit.
Proof.
  split_and!.
  - destruct (_round_for_unit_places unit) as (k & [-> | ->] & Hk);
      rewrite Hk.
    + eapply Qle_trans; [apply (round_near v 2)|].
      vm_compute. discriminate.
    + eapply Qle_trans; [apply (round_near v 3)|].
      vm_compute. discriminate.
  - destruct (_round_for_unit_places unit) as (k & [-> | ->] & Hk);
      rewrite Hk.
    + exists (10 * Py.round_half_even (v * inject_Z (Z.pos (Py.scale 2))))%Z.
      unfold Py.round, Qeq. cbn [Qnum Qden Py.scale]. lia.
    + apply round_has_decimals.
  - apply _round_for_unit_mono.
  - apply _round_for_unit_nonneg.
  - destruct (_round_for_unit_places unit) as (k & _ & Hk).
    rewrite !Hk. apply round_idempotent_eq.
Qed.

Lemma round_for_unit_accuracy_witness :
  _round_for_unit (1234 # 1000) "m" <= _round_for_unit (1236 # 1000) "m" ∧
  0 <= _round_for_unit (1234 # 1000) "m".
Proof.
  split.
  - apply (round_for_unit_accuracy (1234 # 1000) (1236 # 1000) "m").
    vm_compute. discriminate.
  - apply (round_for_unit_accuracy (1234 # 1000) 0 "m").
    vm_compute. discriminate.
Defined.

(** ** [MeasureResult.to_dict] and [meta] *)

(** [to_dict] copies every entry of [meta] into the dictionary, over a
    computed entry of the same name: a key of [meta] reads as in [meta], any
    other key reads as if [meta] were empty, and the keys of the dictionary
    are the four record keys together with those of [meta]. *)
Theorem to_dict_meta (mr : MeasureResult.t) (round_to : nat) (key : string) :
  (∀ v, MeasureResult.meta mr !! key = Some v →
        MeasureResult.to_dict mr round_to !! key = Some v) ∧
  (MeasureResult.meta mr !! key = None →
   MeasureResult.to_dict mr round_to !! key
   = MeasureResult.to_dict
       (MeasureResult.make (MeasureResult.gross mr)
          (MeasureResult.deductions mr) (MeasureResult.additions mr)
          (MeasureResult.unit mr)) round_to !! key) ∧
  dom (MeasureResult.to_dict mr round_to)
  = record_keys ∪ dom (MeasureResult.meta mr).
Proof.
  unfold MeasureResult.to_dict.
  cbn [MeasureResult.gross MeasureResult.deductions MeasureResult.additions
       MeasureResult.meta MeasureResult.make].
  split_and!.
  - intros v Hv. by apply lookup_union_Some_l.
  - intros Hn. rewrite (left_id_L ∅ (∪)). by apply lookup_union_r.
  - unfold record_keys.
    rewrite dom_union_L, !dom_insert_L, dom_empty_L.
    apply set_eq. intros x. set_unfold. tauto.
Qed.

Lemma to_dict_meta_witness :
  MeasureResult.to_dict
    (MeasureResult.Make 10 2 0 "cum" {[ "net" := -1; "pct" := 20 ]}) 3
    !! "net"%string = Some (-1).
Proof.
  apply (to_dict_meta
           (MeasureResult.Make 10 2 0 "cum" {[ "net" := -1; "pct" := 20 ]}) 3
           "net").
  vm_compute. reflexivity.
Defined.
